(** * Market Regime Analyzer (app.py): a shallow embedding and its properties

    The program is one Streamlit script.  It reads three sidebar inputs,
    fetches the adjusted-close prices of a ticker through a memoised
    [get_data], calls the analytics library for a rolling volatility series,
    shows two metrics and a regime badge, draws a two-axis chart and a table
    of the last 30 prices; one [try]/[except Exception] encloses all of it.

    The embedding keeps the script's order of effects: a page is the list of
    elements rendered so far, the memo table of [st.cache_data] and the count
    of network requests are threaded through, and the external collaborators
    (market data download, volatility routine, chart rendering) are the
    fields of an environment record, each of which may raise. *)

From Stdlib Require Import ZArith QArith Qpower List String Ascii Bool Lia.
From Stdlib Require Import DecimalString Reals Qabs.
From Stdlib Require Import Floats.SpecFloat.
From stdpp Require Import base gmap strings.

Import ListNotations.
Local Open Scope string_scope.
Local Open Scope Z_scope.

(** ** Python floats

    A Python [float] is an IEEE 754 binary64 value; [spec_float] is its
    specification-level representation (sign, mantissa, exponent, with
    zeros, infinities and NaN), and the operations round to nearest even. *)

Module PyFloat.

Definition float := spec_float.

Definition prec : Z := 53.
Definition emax : Z := 1024.

(** [float(z)] for a Python int [z]. *)
Definition of_int (z : Z) : float := binary_normalize prec emax z 0 false.

(** [x * y] and [x / y] on floats. *)
Definition mul (x y : float) : float := SFmul prec emax x y.
Definition div (x y : float) : float := SFdiv prec emax x y.

(** The rational number a finite float stands for. *)
Definition F2Q (s : bool) (m : positive) (e : Z) : Q :=
  (inject_Z (cond_Zopp s (Zpos m)) * 2 ^ e)%Q.

(** [x > t] for a float [x] and an int [t].  Python compares the two
    exactly, without converting the int to a float: NaN compares false
    to everything, an infinity by its sign, a finite float by its value. *)
Definition gt_int (x : float) (t : Z) : bool :=
  match x with
  | S754_nan => false
  | S754_infinity s => negb s
  | S754_zero _ => t <? 0
  | S754_finite s m e =>
      match e with
      | Zneg p => t * 2 ^ Zpos p <? cond_Zopp s (Zpos m)
      | _ => t <? cond_Zopp s (Zpos m) * 2 ^ e
      end
  end.

(** The mathematical reading of "x exceeds t". *)
Definition exceeds (x : float) (t : Z) : Prop :=
  match x with
  | S754_nan => False
  | S754_infinity s => s = false
  | S754_zero _ => (inject_Z t < 0)%Q
  | S754_finite s m e => (inject_Z t < F2Q s m e)%Q
  end.

(** The literals the examples use: [20.0], [0.0], and [20.01], the double
    nearest to 2001/100. *)
Definition lit_20_0 : float := S754_finite false 5629499534213120 (-48).
Definition lit_0_0 : float := S754_zero false.
Definition lit_20_01 : float := S754_finite false 5632314283980227 (-48).

End PyFloat.

Import PyFloat.

(** ** Regime classification (app.py, lines 48-54) *)

Inductive RegimeState := STABLE | HIGH_VOLATILITY.

(** [if current_vol > vol_threshold: ... else: ...]; the threshold is the
    int the slider returns. *)
Definition classify (current_vol : float) (vol_threshold : Z) : RegimeState :=
  if gt_int current_vol vol_threshold then HIGH_VOLATILITY else STABLE.

(** The [status] string of each branch. *)
Definition status (r : RegimeState) : string :=
  match r with
  | HIGH_VOLATILITY => "🔴 HIGH VOLATILITY (Defensive)"
  | STABLE => "🟢 NORMAL VOLATILITY (Stable)"
  end.

(** ** Text formatting

    [str(z)] for an int, and the format specification [:.2f] for a float:
    the exact value of the float rounded to two decimals, ties to even,
    with the sign kept (a small negative value prints as [-0.00]). *)

Definition str_of_int (z : Z) : string := NilZero.string_of_int (Z.to_int z).

Definition two_digits (n : Z) : string :=
  (if n <? 10 then "0" else "") ++ str_of_int n.

Definition round_half_even (n d : Z) : Z :=
  let q := n / d in
  let r := n mod d in
  if (d <? 2 * r) || ((d =? 2 * r) && Z.odd q) then q + 1 else q.

(** The magnitude [m * 2^e], in hundredths, rounded. *)
Definition hundredths (m : positive) (e : Z) : Z :=
  match e with
  | Zneg p => round_half_even (Zpos m * 100) (2 ^ Zpos p)
  | _ => Zpos m * 100 * 2 ^ e
  end.

Definition fixed2 (neg : bool) (h : Z) : string :=
  (if neg then "-" else "") ++ str_of_int (h / 100) ++ "." ++ two_digits (h mod 100).

Definition format_2f (x : float) : string :=
  match x with
  | S754_nan => "nan"
  | S754_infinity s => if s then "-inf" else "inf"
  | S754_zero s => fixed2 s 0
  | S754_finite s m e => fixed2 s (hundredths m e)
  end.

(** The number a [:.2f] rendering shows, in hundredths: what a reader of
    the metric sees; [None] for [nan] and the infinities. *)
Definition shown_hundredths (x : float) : option Z :=
  match x with
  | S754_nan | S754_infinity _ => None
  | S754_zero _ => Some 0
  | S754_finite s m e => Some (cond_Zopp s (hundredths m e))
  end.



(** ** Series, frames and exceptions *)

Definition Date := Z.

(** A pandas Series: the index and the values, in index order. *)
Definition Series := list (Date * float).

(** A pandas DataFrame, by column name. *)
Abbreviation DataFrame := (gmap string Series).

Inductive exn :=
| KeyError (key : string)
| IndexError (msg : string)
| LibraryError (msg : string).

Inductive result (A : Type) :=
| Ok (a : A)
| Raise (e : exn).

Arguments Ok {A} a.
Arguments Raise {A} e.

(** [data[key]]: the column, or KeyError. *)
Definition getitem (data : gmap string Series) (key : string) : result Series :=
  match data !! key with
  | Some col => Ok col
  | None => Raise (KeyError key)
  end.

(** [s.iloc[-1]]: the last value, or IndexError on an empty series. *)
Fixpoint iloc_last (s : Series) : result float :=
  match s with
  | [] => Raise (IndexError "single positional indexer is out-of-bounds")
  | [(_, v)] => Ok v
  | _ :: rest => iloc_last rest
  end.

(** [s.tail(n)]: the last [n] rows. *)
Definition tail (n : nat) (s : Series) : Series :=
  skipn (length s - n) s.

(** [s * 100]: every value times 100. *)
Definition times_100 (s : Series) : Series :=
  map (fun '(d, v) => (d, mul v (of_int 100))) s.

(** [Window(w, r)] of the analytics library: window size and ramp-up. *)
Record Window := { w : Z; r : Z }.

(** ** The page *)

Record Line := {
  line_data : Series;
  line_color : string;
  line_style : string;
  line_label : string
}.

Record Figure := {
  xlabel : string;
  left_ylabel : string;
  left_line : Line;
  right_ylabel : string;
  right_line : Line;
  axhline_y : Z;
  axhline_label : string
}.

Inductive element :=
| Title (body : string)
| Markdown (body : string)
| Sidebar (e : element)
| Header (body : string)
| TextInput (label value help : string)
| Selectbox (label : string) (options : list string) (index : nat)
| Slider (label : string) (min_value max_value value : Z)
| Column (i : nat) (e : element)
| Metric (label value : string)
| ErrorBox (body : string)
| SuccessBox (body : string)
| Subheader (body : string)
| Pyplot (fig : Figure)
| Expander (label : string) (body : element)
| Dataframe (s : Series).

(** ** Effects

    What a run of the script can change: the page it renders to, the memo
    table behind [get_data], and the number of network requests made so
    far.  An exception leaves what was already rendered on the page. *)

Record State := {
  page : list element;
  cache : gmap (string * string) Series;
  requests : nat
}.

Definition M (A : Type) : Type := State -> result A * State.

Definition ret {A} (a : A) : M A := fun s => (Ok a, s).

Definition bind {A B} (m : M A) (k : A -> M B) : M B :=
  fun s =>
    match m s with
    | (Ok a, s') => k a s'
    | (Raise e, s') => (Raise e, s')
    end.

Definition lift {A} (x : result A) : M A := fun s => (x, s).

(** [try: body except Exception as e: handler]. *)
Definition try_except {A} (body : M A) (handler : exn -> M A) : M A :=
  fun s =>
    match body s with
    | (Ok a, s') => (Ok a, s')
    | (Raise e, s') => handler e s'
    end.

Notation "'let*' x ':=' m 'in' k" := (bind m (fun x => k))
  (at level 10, x name, m at level 100, k at level 200).
Notation "'do' m 'then' k" := (bind m (fun _ => k))
  (at level 10, m at level 100, k at level 200).

(** Any [st.*] call that draws: the element is appended to the page. *)
Definition render (e : element) : M unit :=
  fun s => (Ok tt, {| page := page s ++ [e]; cache := cache s; requests := requests s |}).

(** [with st.spinner(text): body].  The spinner is shown while the body
    runs and removed when the block is left, normally or by an exception;
    it leaves nothing on the page. *)
Definition spinner {A} (text : string) (body : M A) : M A := body.

(** ** External collaborators *)

Record Env := {
  (** [yf.download(ticker, period=period, progress=False)]; the first
      argument is the number of requests made before this one, so the
      provider may answer differently over time. *)
  yf_download : nat -> string -> string -> result (gmap string Series);
  (** [gs_quant.timeseries.volatility]. *)
  volatility : Series -> Window -> result Series;
  (** [plt.subplots], the plotting calls and [st.pyplot(fig)]. *)
  st_pyplot : Figure -> result unit
}.

Definition download (env : Env) (ticker period : string) : M (gmap string Series) :=
  fun s =>
    (yf_download env (requests s) ticker period,
     {| page := page s; cache := cache s; requests := S (requests s) |}).

(** ** The data fetcher (app.py, lines 24-27) *)

(** Modelled from the spec: the decorator [st.cache_data] is Streamlit's
    and its code is not part of the source.  Following section 4.1, the
    result of a call is kept under the exact (ticker, period) pair for the
    rest of the process, and a call whose pair is present returns the kept
    series without running the function; a call that raises keeps nothing. *)
Definition cache_data (f : string -> string -> M Series) (ticker period : string) : M Series :=
  fun s =>
    match cache s !! (ticker, period) with
    | Some v => (Ok v, s)
    | None =>
        match f ticker period s with
        | (Ok v, s') =>
            (Ok v, {| page := page s';
                      cache := <[(ticker, period) := v]> (cache s');
                      requests := requests s' |})
        | (Raise e, s') => (Raise e, s')
        end
    end.

(** The body of [get_data], undecorated. *)
Definition get_data_body (env : Env) (ticker period : string) : M Series :=
  let* data := download env ticker period in
  lift (getitem data "Adj Close").

Definition get_data (env : Env) : string -> string -> M Series :=
  cache_data (get_data_body env).

(** ** Sidebar inputs (app.py, lines 18-21)

    What the user did to each widget since the page was opened; [None] is
    an untouched widget, which returns its default. *)

Record Interaction := {
  typed_ticker : option string;
  chosen_period : option nat;
  slid_threshold : option Z
}.

(** [st.sidebar.text_input(label, value=..., help=...)]: free text. *)
Definition text_input (label value help : string) (typed : option string) : M string :=
  do render (Sidebar (TextInput label value help)) then
  ret (match typed with Some t => t | None => value end).

(** [st.sidebar.selectbox(label, options, index=...)]: one of the options,
    by position; the one at [index] until the user picks another. *)
Definition selectbox (label : string) (options : list string) (index : nat)
    (chosen : option nat) : M string :=
  let pick i := nth i options "" in
  do render (Sidebar (Selectbox label options index)) then
  ret (match chosen with
       | Some i => if (i <? length options)%nat then pick i else pick index
       | None => pick index
       end).

(** [st.sidebar.slider(label, min_value, max_value, value)] with int
    arguments: an int between the bounds, [value] until the user moves it. *)
Definition slider (label : string) (min_value max_value value : Z)
    (slid : option Z) : M Z :=
  do render (Sidebar (Slider label min_value max_value value)) then
  ret (match slid with
       | Some z => if (min_value <=? z) && (z <=? max_value) then z else value
       | None => value
       end).

Definition period_options : list string := ["1y"; "2y"; "5y"; "10y"].

Definition sidebar_inputs (ui : Interaction) : M (string * string * Z) :=
  do render (Sidebar (Header "Configuration")) then
  let* ticker :=
    text_input "Ticker Symbol" "SPY"
      "Enter a valid Yahoo Finance ticker (e.g., AAPL, BTC-USD, TSLA)"
      (typed_ticker ui) in
  let* period := selectbox "Lookback Period" period_options 1 (chosen_period ui) in
  let* vol_threshold :=
    slider "Volatility Alert Threshold (%)" 10 50 20 (slid_threshold ui) in
  ret (ticker, period, vol_threshold).

(** The widgets of a page that take input. *)
Definition is_input (e : element) : bool :=
  match e with
  | Sidebar (TextInput _ _ _) | Sidebar (Selectbox _ _ _) | Sidebar (Slider _ _ _ _) => true
  | TextInput _ _ _ | Selectbox _ _ _ | Slider _ _ _ _ => true
  | _ => false
  end.

(** ** Main analytics (app.py, lines 30-86) *)

Record Latest := {
  prices : Series;
  vol_series : Series;
  current_price : float;
  current_vol : float
}.

(** Steps 1 and 2: fetch, the volatility call, and the latest values. *)
Definition latest_values (env : Env) (ticker period : string) : M Latest :=
  let* prices :=
    spinner ("Fetching data for " ++ ticker ++ "...") (get_data env ticker period) in
  let* vol_series := lift (volatility env prices {| w := 22; r := 0 |}) in
  let* current_price := lift (iloc_last prices) in
  let* last_vol := lift (iloc_last vol_series) in
  ret {| prices := prices; vol_series := vol_series;
         current_price := current_price;
         current_vol := mul last_vol (of_int 100) |}.

(** [col3.error(status)] or [col3.success(status)]. *)
Definition badge (r : RegimeState) : element :=
  match r with
  | HIGH_VOLATILITY => ErrorBox (status r)
  | STABLE => SuccessBox (status r)
  end.

Definition price_metric (x : Latest) : element :=
  Column 1 (Metric "Current Price" ("$" ++ format_2f (current_price x))).

Definition vol_metric (x : Latest) : element :=
  Column 2 (Metric "30-Day Volatility" (format_2f (current_vol x) ++ "%")).

Definition regime_badge (x : Latest) (vol_threshold : Z) : element :=
  Column 3 (badge (classify (current_vol x) vol_threshold)).

(** Step 3: the two metrics and the regime badge. *)
Definition display_key_metrics (x : Latest) (vol_threshold : Z) : M unit :=
  do render (price_metric x) then
  do render (vol_metric x) then
  render (regime_badge x vol_threshold).

Definition chart (x : Latest) (vol_threshold : Z) : Figure :=
  {| xlabel := "Date";
     left_ylabel := "Price ($)";
     left_line := {| line_data := prices x; line_color := "tab:blue";
                     line_style := "-"; line_label := "Asset Price" |};
     right_ylabel := "Annualized Volatility (%)";
     right_line := {| line_data := times_100 (vol_series x); line_color := "tab:red";
                      line_style := "--"; line_label := "Volatility (GS Model)" |};
     axhline_y := vol_threshold;
     axhline_label := "Threshold (" ++ str_of_int vol_threshold ++ "%)" |}.

(** Step 4: the two-axis chart. *)
Definition visualization (env : Env) (x : Latest) (vol_threshold : Z) : M unit :=
  do render (Subheader "Price vs. Volatility Regime") then
  do lift (st_pyplot env (chart x vol_threshold)) then
  render (Pyplot (chart x vol_threshold)).

(** Step 5: the last 30 prices. *)
Definition data_view (x : Latest) : M unit :=
  render (Expander "View Raw Data" (Dataframe (tail 30 (prices x)))).

(** The body of the [try]. *)
Definition analytics (env : Env) (ticker period : string) (vol_threshold : Z) : M unit :=
  let* x := latest_values env ticker period in
  do display_key_metrics x vol_threshold then
  do visualization env x vol_threshold then
  data_view x.

Definition error_message (ticker : string) : string :=
  "Error: Could not fetch data for ticker '" ++ ticker ++ "'. Please check the symbol.".

(** [try: ... except Exception as e: st.error(...)]. *)
Definition main_analytics (env : Env) (ticker period : string) (vol_threshold : Z) : M unit :=
  try_except (analytics env ticker period vol_threshold)
             (fun _ => render (ErrorBox (error_message ticker))).

(** Everything a successful run renders, in order. *)
Definition outputs (x : Latest) (vol_threshold : Z) : list element :=
  [ price_metric x; vol_metric x; regime_badge x vol_threshold;
    Subheader "Price vs. Volatility Regime";
    Pyplot (chart x vol_threshold);
    Expander "View Raw Data" (Dataframe (tail 30 (prices x))) ].

Definition dquote : string := String (ascii_of_nat 34) EmptyString.

Definition header : M unit :=
  do render (Title "⚡ Market Regime Analyzer") then
  render (Markdown ("
**Powered by Goldman Sachs `gs-quant`**
This tool analyzes the " ++ dquote ++ "Volatility Regime" ++ dquote ++
" of an asset to determine if the market is currently in a state of *Panic* or *Stability*.
")).

(** One run of the script, from a page that starts empty; the memo table
    and the request count carry over from the runs before. *)
Definition app (env : Env) (ui : Interaction) (s : State) : result unit * State :=
  (do header then
   let* inputs := sidebar_inputs ui in
   let '(ticker, period, vol_threshold) := inputs in
   main_analytics env ticker period vol_threshold)
  {| page := []; cache := cache s; requests := requests s |}.

(** ** The volatility engine, as the specification words it

    [volatility] above is the analytics library's routine and its code is
    not part of the source.  Section 4.2 of the specification gives its
    contract, [rollingVolatility(prices, windowSize)]; this module writes
    that contract out. *)

Module VolatilityEngine.

Section Rolling.

Context {price value : Type}.

(** The statistic computed from the prices of one window. *)
Variable stat : list price -> value.

(** Each row of the series with its position. *)
Definition indexed (prices : list (Date * price)) : list (nat * (Date * price)) :=
  combine (seq 0 (length prices)) prices.

(** The prices whose consecutive changes are the trailing [windowSize]
    daily returns ending at position [i]: positions [i - windowSize]
    (or the start of the series) to [i]. *)
Definition trailing (prices : list (Date * price)) (windowSize i : nat) : list price :=
  map snd (firstn (S i - (i - windowSize)) (skipn (i - windowSize) prices)).

(** Modelled from the spec: the volatility routine, which is missing
    from the source.  One point for each date index
    [i >= windowSize - 1], carrying the date at [i] and the statistic
    of the window ending at [i]; [windowSize] must be a positive
    integer at most the length of the series, otherwise the result is
    the empty series. *)
Definition rollingVolatility (prices : list (Date * price)) (windowSize : Z)
    : list (Date * value) :=
  if (0 <? windowSize) && (windowSize <=? Z.of_nat (length prices)) then
    map (fun '(i, (d, _)) => (d, stat (trailing prices (Z.to_nat windowSize) i)))
        (skipn (Z.to_nat windowSize - 1) (indexed prices))
  else [].

End Rolling.

(** The statistic over the reals. *)
Section Statistic.

(** The return convention, which the specification leaves open:
    from the previous price and the price. *)
Variable daily_return : R -> R -> R.

Fixpoint returns (ps : list R) : list R :=
  match ps with
  | p0 :: (p1 :: _) as rest => daily_return p0 p1 :: returns rest
  | _ => []
  end.

Definition total (xs : list R) : R := fold_right Rplus 0%R xs.

Definition mean (xs : list R) : R := (total xs / INR (length xs))%R.

Definition variance (xs : list R) : R :=
  mean (map (fun x => Rsqr (x - mean xs)) xs).

(** Modelled from the spec: the statistic of the missing routine, the
    standard deviation of the returns of the window scaled by the
    annualization factor, the square root of 252 trading days, as a
    fraction. *)
Definition annualized_std (ps : list R) : R :=
  (sqrt 252 * sqrt (variance (returns ps)))%R.

End Statistic.

Definition simple_return (p0 p1 : R) : R := (p1 / p0 - 1)%R.
Definition log_return (p0 p1 : R) : R := ln (p1 / p0).

End VolatilityEngine.

(** What is on the page when the chart cannot be drawn. *)
Definition before_chart (x : Latest) (vol_threshold : Z) : list element :=
  [ price_metric x; vol_metric x; regime_badge x vol_threshold;
    Subheader "Price vs. Volatility Regime" ].

(** ** Statements about the page, as the specification words them *)

(** No partial results: when the body of the [try] raises, only the error
    message is on the page. *)
Definition no_partial_results (env : Env) (ticker period : string)
    (vol_threshold : Z) (s : State) : Prop :=
  forall e,
    fst (analytics env ticker period vol_threshold s) = Raise e ->
    page (snd (main_analytics env ticker period vol_threshold s))
    = (page s ++ [ErrorBox (error_message ticker)])%list.

(** The percentage the metric displays exceeds the threshold, and is at
    least the threshold. *)
Definition displayed_exceeds (x : float) (t : Z) : Prop :=
  match x with
  | S754_nan => False
  | S754_infinity s => s = false
  | _ => match shown_hundredths x with
         | Some h => 100 * t < h
         | None => False
         end
  end.

Definition displayed_at_least (x : float) (t : Z) : Prop :=
  match x with
  | S754_nan => False
  | S754_infinity s => s = false
  | _ => match shown_hundredths x with
         | Some h => 100 * t <= h
         | None => False
         end
  end.

(** The badge is the high-volatility one exactly when the displayed
    percentage exceeds the threshold. *)
Definition badge_matches_display (x : Latest) (vol_threshold : Z) : Prop :=
  regime_badge x vol_threshold = Column 3 (ErrorBox (status HIGH_VOLATILITY))
  <-> displayed_exceeds (current_vol x) vol_threshold.

(** The three widgets of the sidebar, and the values they return. *)
Definition configuration_widgets : list element :=
  [ Sidebar (TextInput "Ticker Symbol" "SPY"
               "Enter a valid Yahoo Finance ticker (e.g., AAPL, BTC-USD, TSLA)");
    Sidebar (Selectbox "Lookback Period" ["1y"; "2y"; "5y"; "10y"] 1);
    Sidebar (Slider "Volatility Alert Threshold (%)" 10 50 20) ].

Definition input_values (ui : Interaction) : string * string * Z :=
  (match typed_ticker ui with Some t => t | None => "SPY" end,
   match chosen_period ui with
   | Some i => if (i <? 4)%nat then nth i period_options "" else "2y"
   | None => "2y"
   end,
   match slid_threshold ui with
   | Some z => if (10 <=? z) && (z <=? 50) then z else 20
   | None => 20
   end).

(** The page above the analytics: header and sidebar. *)
Definition page_top : list element :=
  [ Title "⚡ Market Regime Analyzer";
    Markdown ("
**Powered by Goldman Sachs `gs-quant`**
This tool analyzes the " ++ dquote ++ "Volatility Regime" ++ dquote ++
" of an asset to determine if the market is currently in a state of *Panic* or *Stability*.
");
    Sidebar (Header "Configuration") ] ++ configuration_widgets.

(** ** Runs and invariants *)

(** The script run again and again, once per user interaction. *)
Definition reruns (env : Env) (uis : list Interaction) (s : State) : State :=
  fold_left (fun s ui => snd (app env ui s)) uis s.

(** Every kept series is the adjusted-close column of a frame some earlier
    request for the same ticker and period returned. *)
Definition cache_sound (env : Env) (s : State) : Prop :=
  forall ticker period v,
    cache s !! (ticker, period) = Some v ->
    exists n data,
      (n < requests s)%nat /\
      yf_download env n ticker period = Ok data /\
      data !! "Adj Close" = Some v.

(** A computation that never drops or replaces a kept series. *)
Definition keeps {A} (m : M A) : Prop :=
  forall s k (v : Series), cache s !! k = Some v -> cache (snd (m s)) !! k = Some v.

(** ** Sample data *)

(** The float a decimal literal [n / scale] denotes. *)
Definition decimal (n scale : Z) : float := div (of_int n) (of_int scale).

(** A series of [n] daily prices. *)
Definition sample_prices (n : nat) : list (Date * Z) :=
  map (fun i => (Z.of_nat i, 100 + Z.of_nat i)) (seq 0 n).

(** A provider that knows SPY in either case, whose last price moves with
    every request, and answers any other ticker with an empty frame. *)
Definition sample_download (n : nat) (ticker period : string)
    : result (gmap string Series) :=
  if String.eqb ticker "SPY" || String.eqb ticker "spy" then
    Ok (<["Adj Close" := [(0, decimal 44871 100); (1, decimal 45012 100);
                          (2, of_int (451 + Z.of_nat n))]]>
        (<["Volume" := [(0, of_int 71000); (1, of_int 64000); (2, of_int 80000)]]> ∅))
  else Ok ∅.

(** A volatility routine that answers 0.20004 for every date but the first. *)
Definition sample_volatility (prices : Series) (win : Window) : result Series :=
  Ok (map (fun '(d, _) => (d, decimal 20004 100000)) (skipn 1 prices)).

Definition sample_env : Env :=
  {| yf_download := sample_download;
     volatility := sample_volatility;
     st_pyplot := fun _ => Ok tt |}.

(** The same collaborators, with a chart that cannot be drawn. *)
Definition failing_chart_env : Env :=
  {| yf_download := sample_download;
     volatility := sample_volatility;
     st_pyplot := fun _ => Raise (LibraryError "figure could not be rendered") |}.

Definition initial : State := {| page := []; cache := ∅; requests := 0 |}.

(** The latest values of a first run for SPY against the sample provider. *)
Definition sample_latest : Latest :=
  {| prices := [(0, decimal 44871 100); (1, decimal 45012 100); (2, of_int 451)];
     vol_series := [(1, decimal 20004 100000); (2, decimal 20004 100000)];
     current_price := of_int 451;
     current_vol := mul (decimal 20004 100000) (of_int 100) |}.

(** ** The latest values of a fetched series

    Lines 37-41 once the prices are there: the volatility call and the two
    last elements.  Nothing here touches the page or the memo table. *)
Definition latest_of (env : Env) (ps : Series) : result Latest :=
  match volatility env ps {| w := 22; r := 0 |} with
  | Raise e => Raise e
  | Ok vs =>
      match iloc_last ps with
      | Raise e => Raise e
      | Ok cp =>
          match iloc_last vs with
          | Raise e => Raise e
          | Ok lv =>
              Ok {| prices := ps; vol_series := vs; current_price := cp;
                    current_vol := mul lv (of_int 100) |}
          end
      end
  end.

(** What a run puts below the header and the sidebar. *)
Definition below_top (env : Env) (ticker : string) (vol_threshold : Z)
    (fetched : result Series) : list element :=
  match fetched with
  | Raise _ => [ErrorBox (error_message ticker)]
  | Ok ps =>
      match latest_of env ps with
      | Raise _ => [ErrorBox (error_message ticker)]
      | Ok x =>
          match st_pyplot env (chart x vol_threshold) with
          | Ok _ => outputs x vol_threshold
          | Raise _ =>
              (before_chart x vol_threshold ++ [ErrorBox (error_message ticker)])%list
          end
      end
  end.

(** The periods under which series are kept are selectbox options. *)
Definition periods_from_options (s : State) : Prop :=
  forall ticker period v,
    cache s !! (ticker, period) = Some v -> In period period_options.

(** ** Further sample collaborators *)

(** A provider whose frames have an adjusted-close column with no rows. *)
Definition empty_column_env : Env :=
  {| yf_download := fun _ _ _ => Ok (<["Adj Close" := []]> ∅);
     volatility := sample_volatility;
     st_pyplot := fun _ => Ok tt |}.

(** A volatility routine that answers the empty series when the prices are
    fewer than the window. *)
Definition short_history_env : Env :=
  {| yf_download := sample_download;
     volatility := fun ps win =>
       if Z.of_nat (length ps) <? w win then Ok [] else sample_volatility ps win;
     st_pyplot := fun _ => Ok tt |}.

(** A volatility routine that answers NaN for every date. *)
Definition nan_volatility_env : Env :=
  {| yf_download := sample_download;
     volatility := fun ps _ => Ok (map (fun '(d, _) => (d, S754_nan)) ps);
     st_pyplot := fun _ => Ok tt |}.

(** The latest values when that routine answers the three sample prices. *)
Definition nan_latest : Latest :=
  {| prices := prices sample_latest;
     vol_series := [(0, S754_nan); (1, S754_nan); (2, S754_nan)];
     current_price := of_int 451;
     current_vol := S754_nan |}.

Definition spy_2y : Interaction :=
  {| typed_ticker := None; chosen_period := None; slid_threshold := None |}.

Definition qqq_5y_30 : Interaction :=
  {| typed_ticker := Some "QQQ"; chosen_period := Some 2%nat;
     slid_threshold := Some 30 |}.

(** ** Properties of the float comparison *)

Lemma lit_20_0_of_int : lit_20_0 = of_int 20.
Proof. reflexivity. Qed.

Lemma lit_20_01_nearest : lit_20_01 = div (of_int 2001) (of_int 100).
Proof. vm_compute. reflexivity. Qed.

Lemma two_power_pos (p : positive) : (0 < 2 ^ Zpos p)%Q.
Proof. apply Qpower_0_lt. reflexivity. Qed.

Lemma inject_Z_two_power (p : positive) :
  (inject_Z (2 ^ Zpos p) == 2 ^ Zpos p)%Q.
Proof. apply (Zpower_Qpower 2 (Zpos p)). discriminate. Qed.

Lemma gt_int_finite (s : bool) (m : positive) (e t : Z) :
  gt_int (S754_finite s m e) t = true <-> (inject_Z t < F2Q s m e)%Q.
Proof.
  unfold gt_int, F2Q. set (z := cond_Zopp s (Zpos m)).
  destruct e as [|p|p].
  - rewrite Z.mul_1_r, Z.ltb_lt, Zlt_Qlt. simpl (2 ^ 0)%Q.
    now rewrite Qmult_1_r.
  - rewrite Z.ltb_lt, Zlt_Qlt, inject_Z_mult.
    now rewrite inject_Z_two_power.
  - rewrite Z.ltb_lt, Zlt_Qlt, inject_Z_mult.
    change (Zneg p) with (- Zpos p). rewrite Qpower_opp.
    rewrite inject_Z_two_power.
    pose proof (two_power_pos p) as Hpos.
    split; intros H.
    + apply Qlt_shift_div_l; assumption.
    + apply (Qmult_lt_r _ _ (/ 2 ^ Zpos p)%Q).
      * now apply Qinv_lt_0_compat.
      * rewrite <- Qmult_assoc, Qmult_inv_r, Qmult_1_r; [exact H|].
        intros E. rewrite E in Hpos. discriminate.
Qed.

Lemma gt_int_exceeds (x : float) (t : Z) :
  gt_int x t = true <-> exceeds x t.
Proof.
  destruct x as [s|s| |s m e]; simpl exceeds.
  - simpl. rewrite Z.ltb_lt. now rewrite Zlt_Qlt.
  - simpl. destruct s; simpl; split; congruence.
  - simpl. split; [discriminate | contradiction].
  - apply gt_int_finite.
Qed.

(** C2. The classifier returns HIGH_VOLATILITY exactly when the latest
    volatility percentage exceeds the threshold (strictly) and STABLE
    otherwise; classify(20.0, 20) is STABLE, classify(20.01, 20) is
    HIGH_VOLATILITY and classify(0.0, 10) is STABLE. *)
Theorem classify_strict : forall (v : float) (t : Z),
  (classify v t = HIGH_VOLATILITY <-> exceeds v t) /\
  (classify v t = STABLE <-> ~ exceeds v t) /\
  classify lit_20_0 20 = STABLE /\
  classify lit_20_01 20 = HIGH_VOLATILITY /\
  classify lit_0_0 10 = STABLE.
Proof.
  intros v t. rewrite <- gt_int_exceeds. unfold classify.
  repeat split; try reflexivity;
    destruct (gt_int v t); congruence.
Qed.

(** ** The volatility engine of the specification *)

Module VolatilityEngineFacts.

Import VolatilityEngine.

Section Rolling.

Context {price value : Type} (stat : list price -> value).

Lemma indexed_length (prices : list (Date * price)) :
  length (indexed prices) = length prices.
Proof.
  unfold indexed. rewrite length_combine, length_seq. apply Nat.min_id.
Qed.

Lemma indexed_row (prices : list (Date * price)) i d p :
  In (i, (d, p)) (indexed prices) -> In (d, p) prices.
Proof. unfold indexed. apply in_combine_r. Qed.

Lemma rollingVolatility_length (prices : list (Date * price)) (n : Z) :
  0 < n <= Z.of_nat (length prices) ->
  length (rollingVolatility stat prices n)
  = (length prices - (Z.to_nat n - 1))%nat.
Proof.
  intros [Hpos Hle]. unfold rollingVolatility.
  apply Z.ltb_lt in Hpos. apply Z.leb_le in Hle. rewrite Hpos, Hle. simpl.
  now rewrite length_map, length_skipn, indexed_length.
Qed.

Lemma rollingVolatility_short (prices : list (Date * price)) (n : Z) :
  Z.of_nat (length prices) < n ->
  rollingVolatility stat prices n = [].
Proof.
  intros Hlt. unfold rollingVolatility.
  apply Z.leb_gt in Hlt. rewrite Hlt. now rewrite andb_false_r.
Qed.

Lemma rollingVolatility_point (prices : list (Date * price)) (n : Z) d v :
  In (d, v) (rollingVolatility stat prices n) ->
  exists i p, In (d, p) prices /\ v = stat (trailing prices (Z.to_nat n) i).
Proof.
  unfold rollingVolatility.
  destruct ((0 <? n) && (n <=? Z.of_nat (length prices))); [|contradiction].
  intros Hin. apply in_map_iff in Hin.
  destruct Hin as [[i [d' p]] [Heq Hin]].
  inversion Heq; subst.
  exists i, p. split; [|reflexivity].
  apply (indexed_row prices i).
  rewrite <- (firstn_skipn (Z.to_nat n - 1) (indexed prices)).
  apply in_or_app. now right.
Qed.

End Rolling.

End VolatilityEngineFacts.

Import VolatilityEngine VolatilityEngineFacts.

Lemma indexed_dates_from {price : Type} (prices : list (Date * price)) (k : nat) :
  map (fun '(_, (d, _)) => d) (combine (seq k (length prices)) prices)
  = map fst prices.
Proof.
  revert k. induction prices as [|[d p] rest IH]; intros k; simpl.
  - reflexivity.
  - now rewrite IH.
Qed.

Lemma rollingVolatility_dates {price value : Type} (stat : list price -> value)
    (prices : list (Date * price)) (n : Z) :
  0 < n <= Z.of_nat (length prices) ->
  map fst (rollingVolatility stat prices n)
  = skipn (Z.to_nat n - 1) (map fst prices).
Proof.
  intros [Hpos Hle]. unfold rollingVolatility.
  apply Z.ltb_lt in Hpos. apply Z.leb_le in Hle. rewrite Hpos, Hle. simpl.
  rewrite map_map, <- (indexed_dates_from prices 0), skipn_map.
  apply map_ext. now intros [i [d p]].
Qed.

(** C1. With the fixed window of 22, the volatility series has |p| - 21
    points when the price series p has at least 22, exactly one point when
    it has exactly 22, and is empty when it has fewer than 22. *)
Theorem volatility_series_length {price value : Type} (stat : list price -> value)
    (prices : list (Date * price)) :
  ((22 <= length prices)%nat ->
     length (rollingVolatility stat prices 22) = (length prices - 21)%nat) /\
  (length prices = 22%nat ->
     length (rollingVolatility stat prices 22) = 1%nat) /\
  ((length prices < 22)%nat ->
     rollingVolatility stat prices 22 = []).
Proof.
  split; [|split]; intros H.
  - rewrite rollingVolatility_length by lia. reflexivity.
  - rewrite rollingVolatility_length by lia. rewrite H. reflexivity.
  - apply rollingVolatility_short. lia.
Qed.

Lemma volatility_series_length_witness :
  length (rollingVolatility (@length Z) (sample_prices 30) 22) = 9%nat /\
  length (rollingVolatility (@length Z) (sample_prices 22) 22) = 1%nat /\
  rollingVolatility (@length Z) (sample_prices 3) 22 = [].
Proof.
  split; [|split].
  - apply (proj1 (volatility_series_length (@length Z) (sample_prices 30))).
    simpl. lia.
  - apply (proj1 (proj2 (volatility_series_length (@length Z) (sample_prices 22)))).
    reflexivity.
  - apply (proj2 (proj2 (volatility_series_length (@length Z) (sample_prices 3)))).
    simpl. lia.
Defined.

(** C5. Every date of the volatility series produced from a price series
    is a date of that price series: the series carries the dates of the
    price series from position windowSize - 1 on. *)
Theorem volatility_dates_in_prices {price value : Type} (stat : list price -> value)
    (prices : list (Date * price)) (n : Z) (d : Date) :
  In d (map fst (rollingVolatility stat prices n)) ->
  In d (map fst prices) /\
  exists skipped,
    map fst prices = (skipped ++ map fst (rollingVolatility stat prices n))%list.
Proof.
  intros Hin.
  destruct ((0 <? n) && (n <=? Z.of_nat (length prices))) eqn:Hvalid.
  - apply andb_prop in Hvalid. destruct Hvalid as [Hpos Hle].
    apply Z.ltb_lt in Hpos. apply Z.leb_le in Hle.
    rewrite rollingVolatility_dates in * by lia.
    split.
    + rewrite <- (firstn_skipn (Z.to_nat n - 1) (map fst prices)).
      apply in_or_app. now right.
    + exists (firstn (Z.to_nat n - 1) (map fst prices)).
      symmetry. apply firstn_skipn.
  - unfold rollingVolatility in Hin. rewrite Hvalid in Hin. contradiction.
Qed.

Lemma volatility_dates_in_prices_witness :
  In 21 (map fst (sample_prices 22)) /\
  exists skipped,
    map fst (sample_prices 22)
    = (skipped ++ map fst (rollingVolatility (@length Z) (sample_prices 22) 22))%list.
Proof.
  apply (volatility_dates_in_prices (@length Z) (sample_prices 22) 22 21).
  simpl. left. reflexivity.
Defined.

(** C6. Every value of the volatility series is greater than or equal
    to 0, for every price series, window and return convention. *)
Theorem volatility_nonnegative (daily_return : R -> R -> R)
    (prices : list (Date * R)) (n : Z) (d : Date) (v : R) :
  In (d, v) (rollingVolatility (annualized_std daily_return) prices n) ->
  (0 <= v)%R.
Proof.
  intros Hin. apply rollingVolatility_point in Hin.
  destruct Hin as (i & p & _ & ->).
  unfold annualized_std. apply Rmult_le_pos; apply sqrt_pos.
Qed.

Lemma volatility_nonnegative_witness :
  (0 <= annualized_std simple_return [100; 110; 99]%R)%R.
Proof.
  apply (volatility_nonnegative simple_return
           [(0, 100%R); (1, 110%R); (2, 99%R)] 2 2).
  right. left. reflexivity.
Defined.


(** ** The data fetcher and its memo table *)

Ltac run_step :=
  match goal with
  | |- context [match ?x with Ok _ => _ | Raise _ => _ end] => destruct x eqn:?
  | |- context [match ?x with Some _ => _ | None => _ end] => destruct x eqn:?
  | |- context [let (_, _) := ?x in _] => destruct x eqn:?
  end; simpl.

Lemma get_data_body_run (env : Env) (ticker period : string) (s : State) :
  get_data_body env ticker period s
  = (match yf_download env (requests s) ticker period with
     | Ok data => getitem data "Adj Close"
     | Raise e => Raise e
     end,
     {| page := page s; cache := cache s; requests := S (requests s) |}).
Proof.
  unfold get_data_body, bind, download, lift.
  now destruct (yf_download env (requests s) ticker period).
Qed.

Lemma get_data_hit (env : Env) (ticker period : string) (s : State) (v : Series) :
  cache s !! (ticker, period) = Some v ->
  get_data env ticker period s = (Ok v, s).
Proof. intros H. unfold get_data, cache_data. now rewrite H. Qed.

Lemma get_data_miss (env : Env) (ticker period : string) (s : State) :
  cache s !! (ticker, period) = None ->
  get_data env ticker period s
  = match yf_download env (requests s) ticker period with
    | Ok data =>
        match data !! "Adj Close" with
        | Some v => (Ok v, {| page := page s;
                              cache := <[(ticker, period) := v]> (cache s);
                              requests := S (requests s) |})
        | None => (Raise (KeyError "Adj Close"),
                   {| page := page s; cache := cache s; requests := S (requests s) |})
        end
    | Raise e => (Raise e,
                  {| page := page s; cache := cache s; requests := S (requests s) |})
    end.
Proof.
  intros H. unfold get_data, cache_data. rewrite H, get_data_body_run.
  unfold getitem.
  destruct (yf_download env (requests s) ticker period) as [data|e]; [|reflexivity].
  now destruct (data !! "Adj Close").
Qed.

Lemma get_data_page (env : Env) (ticker period : string) (s : State) :
  page (snd (get_data env ticker period s)) = page s.
Proof.
  destruct (cache s !! (ticker, period)) as [v|] eqn:H.
  - now rewrite (get_data_hit _ _ _ _ _ H).
  - rewrite (get_data_miss _ _ _ _ H). repeat run_step; reflexivity.
Qed.

Lemma get_data_stores (env : Env) (ticker period : string) (s s1 : State) (v : Series) :
  get_data env ticker period s = (Ok v, s1) ->
  cache s1 !! (ticker, period) = Some v.
Proof.
  destruct (cache s !! (ticker, period)) as [v0|] eqn:H.
  - rewrite (get_data_hit _ _ _ _ _ H). intros E. now inversion E; subst.
  - rewrite (get_data_miss _ _ _ _ H).
    destruct (yf_download env (requests s) ticker period) as [data|e]; [|discriminate].
    destruct (data !! "Adj Close"); [|discriminate].
    intros E. inversion E; subst. simpl. apply lookup_insert_eq.
Qed.

Lemma get_data_keeps (env : Env) (ticker period : string) (s : State)
    (k : string * string) (v : Series) :
  cache s !! k = Some v ->
  cache (snd (get_data env ticker period s)) !! k = Some v.
Proof.
  intros Hk.
  destruct (cache s !! (ticker, period)) as [v0|] eqn:H.
  - now rewrite (get_data_hit _ _ _ _ _ H).
  - rewrite (get_data_miss _ _ _ _ H).
    repeat run_step; try assumption.
    rewrite lookup_insert_ne; [assumption|]. congruence.
Qed.

Lemma get_data_requests (env : Env) (ticker period : string) (s : State) :
  requests (snd (get_data env ticker period s))
  = match cache s !! (ticker, period) with
    | Some _ => requests s
    | None => S (requests s)
    end.
Proof.
  destruct (cache s !! (ticker, period)) as [v0|] eqn:H.
  - now rewrite (get_data_hit _ _ _ _ _ H).
  - rewrite (get_data_miss _ _ _ _ H). repeat run_step; reflexivity.
Qed.

(** ** What a run changes *)

Lemma keeps_ret {A} (a : A) : keeps (ret a).
Proof. now intros s k v H. Qed.

Lemma keeps_lift {A} (x : result A) : keeps (lift x).
Proof. now intros s k v H. Qed.

Lemma keeps_render (e : element) : keeps (render e).
Proof. now intros s k v H. Qed.

Lemma keeps_bind {A B} (m : M A) (f : A -> M B) :
  keeps m -> (forall a, keeps (f a)) -> keeps (bind m f).
Proof.
  intros Hm Hf s k v H. unfold bind.
  specialize (Hm s k v H).
  destruct (m s) as [[a|e] s1]; simpl in *; [now apply Hf | assumption].
Qed.

Lemma keeps_try_except {A} (m : M A) (h : exn -> M A) :
  keeps m -> (forall e, keeps (h e)) -> keeps (try_except m h).
Proof.
  intros Hm Hh s k v H. unfold try_except.
  specialize (Hm s k v H).
  destruct (m s) as [[a|e] s1]; simpl in *; [assumption | now apply Hh].
Qed.

Lemma keeps_get_data (env : Env) (ticker period : string) :
  keeps (get_data env ticker period).
Proof. intros s k v H. now apply get_data_keeps. Qed.

Create HintDb keeps_db.
#[local] Hint Resolve keeps_ret keeps_lift keeps_render keeps_get_data : keeps_db.

Ltac keeps_tac :=
  repeat match goal with
    | |- keeps (bind _ _) => apply keeps_bind; [|intros ?]
    | |- keeps (try_except _ _) => apply keeps_try_except; [|intros ?]
    | |- keeps (let '(_, _) := ?x in _) => destruct x
    | |- keeps _ => solve [auto with keeps_db]
    end.

Lemma keeps_main_analytics (env : Env) (ticker period : string) (thr : Z) :
  keeps (main_analytics env ticker period thr).
Proof.
  unfold main_analytics, analytics, latest_values, display_key_metrics,
    visualization, data_view, spinner.
  keeps_tac.
Qed.

Lemma app_keeps (env : Env) (ui : Interaction) (s : State)
    (k : string * string) (v : Series) :
  cache s !! k = Some v -> cache (snd (app env ui s)) !! k = Some v.
Proof.
  intros H. unfold app.
  set (s0 := {| page := []; cache := cache s; requests := requests s |}).
  assert (Hk : keeps (do header then
                      let* inputs := sidebar_inputs ui in
                      let '(ticker, period, vol_threshold) := inputs in
                      main_analytics env ticker period vol_threshold)).
  { unfold header, sidebar_inputs, text_input, selectbox, slider.
    keeps_tac. apply keeps_main_analytics. }
  now apply (Hk s0).
Qed.

Lemma reruns_keep (env : Env) (uis : list Interaction) (s : State)
    (k : string * string) (v : Series) :
  cache s !! k = Some v -> cache (reruns env uis s) !! k = Some v.
Proof.
  revert s. induction uis as [|ui uis IH]; intros s H; simpl.
  - assumption.
  - apply IH. now apply app_keeps.
Qed.

(** C4. Once a call of the data fetcher for a (ticker, period) pair has
    returned a series, a later call with the same arguments, after any
    number of further runs of the script, returns a series with the same
    content and makes no network request. *)
Theorem get_data_memoised (env : Env) (ticker period : string)
    (s s1 : State) (v : Series) (uis : list Interaction) :
  get_data env ticker period s = (Ok v, s1) ->
  let s2 := reruns env uis s1 in
  get_data env ticker period s2 = (Ok v, s2) /\
  requests (snd (get_data env ticker period s2)) = requests s2.
Proof.
  intros Hfirst s2.
  assert (Hkept : cache s2 !! (ticker, period) = Some v).
  { apply reruns_keep. eapply get_data_stores; eauto. }
  rewrite (get_data_hit _ _ _ _ _ Hkept). split; reflexivity.
Qed.

Lemma get_data_memoised_witness :
  let s1 := snd (get_data sample_env "SPY" "2y" initial) in
  let s2 := reruns sample_env
              [ {| typed_ticker := Some "SPY"; chosen_period := Some 0%nat;
                   slid_threshold := None |};
                {| typed_ticker := Some "QQQ"; chosen_period := None;
                   slid_threshold := Some 30 |} ] s1 in
  get_data sample_env "SPY" "2y" s2
  = (Ok [(0, decimal 44871 100); (1, decimal 45012 100); (2, of_int 451)], s2) /\
  requests (snd (get_data sample_env "SPY" "2y" s2)) = requests s2.
Proof.
  apply (get_data_memoised sample_env "SPY" "2y" initial).
  vm_compute. reflexivity.
Defined.

(** C9. The data fetcher returns the adjusted-close column of a downloaded
    frame and nothing else of it: the series it returns for a ticker and
    period is the "Adj Close" column of a frame the provider returned for
    that ticker and period, whether it is fetched now or was kept from an
    earlier call. *)
Theorem get_data_adj_close (env : Env) (ticker period : string)
    (s s1 : State) (v : Series) :
  cache_sound env s ->
  get_data env ticker period s = (Ok v, s1) ->
  (exists n data,
     (n < requests s1)%nat /\
     yf_download env n ticker period = Ok data /\
     getitem data "Adj Close" = Ok v) /\
  cache_sound env s1.
Proof.
  intros Hsound Hrun.
  destruct (cache s !! (ticker, period)) as [v0|] eqn:Hc.
  - rewrite (get_data_hit _ _ _ _ _ Hc) in Hrun. inversion Hrun; subst.
    split; [|assumption].
    destruct (Hsound _ _ _ Hc) as (n & data & Hn & Hd & Hcol).
    exists n, data. unfold getitem. now rewrite Hcol.
  - rewrite (get_data_miss _ _ _ _ Hc) in Hrun.
    destruct (yf_download env (requests s) ticker period) as [data|e] eqn:Hd;
      [|discriminate].
    destruct (data !! "Adj Close") as [col|] eqn:Hcol; [|discriminate].
    inversion Hrun; subst. simpl. split.
    + exists (requests s), data. unfold getitem. rewrite Hcol. auto.
    + intros t p v' Hv'. simpl in Hv'.
      destruct (decide ((ticker, period) = (t, p))) as [E|NE].
      * inversion E; subst. rewrite lookup_insert_eq in Hv'.
        inversion Hv'; subst. exists (requests s), data. simpl. auto.
      * rewrite lookup_insert_ne in Hv' by assumption.
        destruct (Hsound _ _ _ Hv') as (n & data' & Hn & Hd' & Hcol').
        exists n, data'. simpl. auto.
Qed.

Lemma initial_cache_sound (env : Env) : cache_sound env initial.
Proof. intros t p v H. simpl in H. now rewrite lookup_empty in H. Qed.

Lemma get_data_adj_close_witness :
  (exists n data,
     (n < 1)%nat /\
     sample_download n "SPY" "2y" = Ok data /\
     getitem data "Adj Close"
     = Ok [(0, decimal 44871 100); (1, decimal 45012 100); (2, of_int 451)]) /\
  cache_sound sample_env (snd (get_data sample_env "SPY" "2y" initial)).
Proof.
  apply (get_data_adj_close sample_env "SPY" "2y" initial
           (snd (get_data sample_env "SPY" "2y" initial))
           [(0, decimal 44871 100); (1, decimal 45012 100); (2, of_int 451)]).
  - apply initial_cache_sound.
  - vm_compute. reflexivity.
Defined.

(** ** The error boundary *)

Lemma latest_values_page (env : Env) (ticker period : string) (s : State) :
  page (snd (latest_values env ticker period s)) = page s.
Proof.
  unfold latest_values, spinner, bind, lift, ret.
  pose proof (get_data_page env ticker period s) as Hp.
  destruct (get_data env ticker period s) as [[prices|e] s1]; simpl in *;
    [|assumption].
  repeat run_step; assumption.
Qed.

Lemma main_analytics_run (env : Env) (ticker period : string) (thr : Z) (s : State) :
  main_analytics env ticker period thr s
  = match latest_values env ticker period s with
    | (Raise _, s1) =>
        (Ok tt, {| page := page s ++ [ErrorBox (error_message ticker)];
                   cache := cache s1; requests := requests s1 |})
    | (Ok x, s1) =>
        match st_pyplot env (chart x thr) with
        | Ok _ =>
            (Ok tt, {| page := page s ++ outputs x thr;
                       cache := cache s1; requests := requests s1 |})
        | Raise _ =>
            (Ok tt, {| page := page s ++ before_chart x thr
                                 ++ [ErrorBox (error_message ticker)];
                       cache := cache s1; requests := requests s1 |})
        end
    end.
Proof.
  pose proof (latest_values_page env ticker period s) as Hp.
  unfold main_analytics, try_except, analytics, bind.
  destruct (latest_values env ticker period s) as [[x|e] s1]; simpl in Hp.
  - unfold display_key_metrics, visualization, data_view, bind, render, lift.
    simpl. destruct (st_pyplot env (chart x thr)); simpl; rewrite Hp;
      unfold outputs, before_chart; repeat rewrite <- app_assoc; reflexivity.
  - unfold render. simpl. now rewrite Hp.
Qed.

Lemma analytics_result (env : Env) (ticker period : string) (thr : Z) (s : State) :
  fst (analytics env ticker period thr s)
  = match fst (latest_values env ticker period s) with
    | Raise e => Raise e
    | Ok x => match st_pyplot env (chart x thr) with
              | Ok _ => Ok tt
              | Raise e => Raise e
              end
    end.
Proof.
  unfold analytics, bind.
  destruct (latest_values env ticker period s) as [[x|e] s1]; simpl; [|reflexivity].
  unfold display_key_metrics, visualization, data_view, bind, render, lift.
  simpl. now destruct (st_pyplot env (chart x thr)).
Qed.

(** C3, as amended.  Every exception raised inside the [try] is caught and
    turned into one generic error message that names the ticker, and the
    run itself never raises.  When the exception comes from the fetch, the
    volatility call or the reading of the latest values, the error message
    is all the run shows; when it comes from drawing the chart, the two
    metrics, the badge and the subheader rendered before it stay on the
    page, followed by the error message.  When nothing raises, every
    output is rendered and no error message is. *)
Theorem error_boundary (env : Env) (ticker period : string) (thr : Z) (s : State) :
  fst (main_analytics env ticker period thr s) = Ok tt /\
  let shown := page (snd (main_analytics env ticker period thr s)) in
  match fst (latest_values env ticker period s) with
  | Raise _ =>
      (exists e, fst (analytics env ticker period thr s) = Raise e) /\
      shown = (page s ++ [ErrorBox (error_message ticker)])%list
  | Ok x =>
      match fst (analytics env ticker period thr s) with
      | Ok _ => shown = (page s ++ outputs x thr)%list
      | Raise _ =>
          shown = (page s ++ before_chart x thr
                   ++ [ErrorBox (error_message ticker)])%list
      end
  end.
Proof.
  rewrite analytics_result, main_analytics_run.
  destruct (latest_values env ticker period s) as [[x|e] s1]; simpl.
  - destruct (st_pyplot env (chart x thr)); simpl; auto.
  - split; [reflexivity|]. split; [now exists e | reflexivity].
Qed.

Lemma partial_results_counterexample :
  ~ no_partial_results failing_chart_env "SPY" "2y" 20 initial /\
  page (snd (main_analytics failing_chart_env "SPY" "2y" 20 initial))
  = [ Column 1 (Metric "Current Price" "$451.00");
      Column 2 (Metric "30-Day Volatility" "20.00%");
      Column 3 (ErrorBox "🔴 HIGH VOLATILITY (Defensive)");
      Subheader "Price vs. Volatility Regime";
      ErrorBox "Error: Could not fetch data for ticker 'SPY'. Please check the symbol." ].
Proof.
  split.
  - intros H.
    specialize (H (LibraryError "figure could not be rendered")).
    assert (E : fst (analytics failing_chart_env "SPY" "2y" 20 initial)
                = Raise (LibraryError "figure could not be rendered"))
      by (vm_compute; reflexivity).
    specialize (H E). vm_compute in H. discriminate.
  - vm_compute. reflexivity.
Qed.

(** ** The metric and the badge *)

Lemma round_half_even_cases (n d : Z) :
  0 < d ->
  exists q r,
    n = d * q + r /\ 0 <= r < d /\
    ((round_half_even n d = q /\ 2 * r <= d) \/
     (round_half_even n d = q + 1 /\ d <= 2 * r)).
Proof.
  intros Hd. exists (n / d), (n mod d).
  split; [apply Z.div_mod; lia|].
  split; [apply Z.mod_pos_bound; lia|].
  unfold round_half_even.
  destruct (d <? 2 * (n mod d)) eqn:E1; simpl.
  - apply Z.ltb_lt in E1. right. lia.
  - apply Z.ltb_ge in E1.
    destruct (d =? 2 * (n mod d)) eqn:E2; simpl.
    + apply Z.eqb_eq in E2. destruct (Z.odd (n / d)); [right | left]; lia.
    + left. lia.
Qed.

Lemma round_ge (n d k : Z) : 0 < d -> k * d <= n -> k <= round_half_even n d.
Proof.
  intros Hd H. destruct (round_half_even_cases n d Hd)
    as (q & r & -> & Hr & [[-> _]|[-> _]]); nia.
Qed.

Lemma round_le (n d k : Z) : 0 < d -> n <= k * d -> round_half_even n d <= k.
Proof.
  intros Hd H. destruct (round_half_even_cases n d Hd)
    as (q & r & -> & Hr & [[-> _]|[-> Hup]]); nia.
Qed.

Lemma round_gt (n d k : Z) : 0 < d -> k < round_half_even n d -> k * d < n.
Proof.
  intros Hd H. destruct (round_half_even_cases n d Hd)
    as (q & r & -> & Hr & [[E _]|[E Hup]]); rewrite E in H; nia.
Qed.

Lemma round_lt (n d k : Z) : 0 < d -> round_half_even n d < k -> n < k * d.
Proof.
  intros Hd H. destruct (round_half_even_cases n d Hd)
    as (q & r & -> & Hr & [[E Hdown]|[E _]]); rewrite E in H; nia.
Qed.

Lemma exceeds_displayed_at_least (x : float) (t : Z) :
  exceeds x t -> displayed_at_least x t.
Proof.
  rewrite <- gt_int_exceeds.
  destruct x as [s|s| |s m e]; simpl; try congruence.
  - rewrite Z.ltb_lt. lia.
  - now destruct s.
  - assert (Hpow : forall p, 0 < 2 ^ Zpos p) by (intros p; now apply Z.pow_pos_nonneg).
    destruct e as [|p|p]; rewrite Z.ltb_lt; unfold hundredths;
      destruct s; simpl cond_Zopp; intros H.
    + lia.
    + lia.
    + specialize (Hpow p). nia.
    + specialize (Hpow p). nia.
    + specialize (Hpow p).
      enough (round_half_even (Zpos m * 100) (2 ^ Zpos p) <= - (100 * t)) by lia.
      apply round_le; [assumption | nia].
    + specialize (Hpow p). apply round_ge; [assumption | nia].
Qed.

Lemma displayed_exceeds_exceeds (x : float) (t : Z) :
  displayed_exceeds x t -> exceeds x t.
Proof.
  rewrite <- gt_int_exceeds.
  destruct x as [s|s| |s m e]; simpl; try congruence; try contradiction.
  - rewrite Z.ltb_lt. lia.
  - now destruct s.
  - assert (Hpow : forall p, 0 < 2 ^ Zpos p) by (intros p; now apply Z.pow_pos_nonneg).
    destruct e as [|p|p]; rewrite Z.ltb_lt; unfold hundredths;
      destruct s; simpl cond_Zopp; intros H.
    + lia.
    + lia.
    + specialize (Hpow p). nia.
    + specialize (Hpow p). nia.
    + specialize (Hpow p).
      assert (H' : round_half_even (Zpos m * 100) (2 ^ Zpos p) < - (100 * t)) by lia.
      apply round_lt in H'; [nia | assumption].
    + specialize (Hpow p). apply round_gt in H; [nia | assumption].
Qed.

Lemma latest_values_ok (env : Env) (ticker period : string) (s s1 : State) (x : Latest) :
  latest_values env ticker period s = (Ok x, s1) ->
  get_data env ticker period s = (Ok (prices x), s1) /\
  volatility env (prices x) {| w := 22; r := 0 |} = Ok (vol_series x) /\
  iloc_last (prices x) = Ok (current_price x) /\
  exists last_vol,
    iloc_last (vol_series x) = Ok last_vol /\
    current_vol x = mul last_vol (of_int 100).
Proof.
  unfold latest_values, spinner, bind, lift, ret.
  destruct (get_data env ticker period s) as [[ps|e] s0]; [|discriminate].
  destruct (volatility env ps {| w := 22; r := 0 |}) as [vs|e] eqn:Hvs; [|discriminate].
  destruct (iloc_last ps) as [cp|e] eqn:Hcp; [|discriminate].
  destruct (iloc_last vs) as [lv|e] eqn:Hlv; [|discriminate].
  intros E. inversion E; subst. simpl.
  split; [reflexivity|]. split; [assumption|]. split; [assumption|].
  exists lv. split; [assumption | reflexivity].
Qed.

Lemma badge_high (v : float) (t : Z) :
  badge (classify v t) = ErrorBox (status HIGH_VOLATILITY) <-> exceeds v t.
Proof.
  rewrite <- gt_int_exceeds. unfold classify.
  destruct (gt_int v t); simpl; split; congruence.
Qed.

(** C8, as amended.  On every successful render the volatility metric and
    the regime badge are derived from the same value, the last element of
    the volatility series times 100.  The badge is the high-volatility one
    exactly when that value, unrounded, exceeds the threshold; the metric
    displays the value rounded to two decimals, so a high-volatility badge
    comes with a displayed percentage of at least the threshold, and a
    displayed percentage above the threshold comes with a high-volatility
    badge. *)
Theorem badge_and_metric_same_value (env : Env) (ticker period : string)
    (thr : Z) (s s1 : State) (x : Latest) :
  latest_values env ticker period s = (Ok x, s1) ->
  st_pyplot env (chart x thr) = Ok tt ->
  let shown := page (snd (main_analytics env ticker period thr s)) in
  shown = (page s ++ outputs x thr)%list /\
  (exists last_vol,
     iloc_last (vol_series x) = Ok last_vol /\
     current_vol x = mul last_vol (of_int 100)) /\
  In (Column 2 (Metric "30-Day Volatility" (format_2f (current_vol x) ++ "%"))) shown /\
  In (Column 3 (badge (classify (current_vol x) thr))) shown /\
  (regime_badge x thr = Column 3 (ErrorBox (status HIGH_VOLATILITY))
   <-> exceeds (current_vol x) thr) /\
  (exceeds (current_vol x) thr -> displayed_at_least (current_vol x) thr) /\
  (displayed_exceeds (current_vol x) thr -> exceeds (current_vol x) thr).
Proof.
  intros Hlatest Hplot shown.
  assert (Hshown : shown = (page s ++ outputs x thr)%list).
  { unfold shown. rewrite main_analytics_run, Hlatest, Hplot. reflexivity. }
  split; [exact Hshown|].
  split; [apply (latest_values_ok _ _ _ _ _ _ Hlatest)|].
  rewrite Hshown.
  split; [apply in_or_app; right; simpl; auto|].
  split; [apply in_or_app; right; simpl; auto|].
  split.
  - unfold regime_badge. rewrite <- badge_high.
    split; [intros E; now inversion E | intros E; now rewrite E].
  - split; [apply exceeds_displayed_at_least | apply displayed_exceeds_exceeds].
Qed.

Lemma badge_and_metric_same_value_witness :
  let shown := page (snd (main_analytics sample_env "SPY" "2y" 25 initial)) in
  shown = ([] ++ outputs sample_latest 25)%list /\
  (exists last_vol,
     iloc_last (vol_series sample_latest) = Ok last_vol /\
     current_vol sample_latest = mul last_vol (of_int 100)) /\
  In (Column 2 (Metric "30-Day Volatility"
                  (format_2f (current_vol sample_latest) ++ "%"))) shown /\
  In (Column 3 (badge (classify (current_vol sample_latest) 25))) shown /\
  (regime_badge sample_latest 25 = Column 3 (ErrorBox (status HIGH_VOLATILITY))
   <-> exceeds (current_vol sample_latest) 25) /\
  (exceeds (current_vol sample_latest) 25 ->
   displayed_at_least (current_vol sample_latest) 25) /\
  (displayed_exceeds (current_vol sample_latest) 25 ->
   exceeds (current_vol sample_latest) 25).
Proof.
  apply (badge_and_metric_same_value sample_env "SPY" "2y" 25 initial
           (snd (latest_values sample_env "SPY" "2y" initial)) sample_latest).
  - vm_compute. reflexivity.
  - reflexivity.
Defined.

Lemma badge_display_counterexample :
  fst (latest_values sample_env "SPY" "2y" initial) = Ok sample_latest /\
  page (snd (main_analytics sample_env "SPY" "2y" 20 initial))
  = outputs sample_latest 20 /\
  vol_metric sample_latest = Column 2 (Metric "30-Day Volatility" "20.00%") /\
  regime_badge sample_latest 20
  = Column 3 (ErrorBox "🔴 HIGH VOLATILITY (Defensive)") /\
  ~ badge_matches_display sample_latest 20.
Proof.
  split; [vm_compute; reflexivity|].
  split; [vm_compute; reflexivity|].
  split; [vm_compute; reflexivity|].
  split; [vm_compute; reflexivity|].
  intros [Hdisp _].
  assert (Hbadge : regime_badge sample_latest 20
                   = Column 3 (ErrorBox (status HIGH_VOLATILITY)))
    by (vm_compute; reflexivity).
  apply Hdisp in Hbadge. vm_compute in Hbadge. discriminate.
Qed.

(** ** The sidebar *)

Lemma sidebar_inputs_run (ui : Interaction) (s : State) :
  sidebar_inputs ui s
  = (Ok (input_values ui),
     {| page := page s ++ Sidebar (Header "Configuration") :: configuration_widgets;
        cache := cache s; requests := requests s |}).
Proof.
  unfold sidebar_inputs, text_input, selectbox, slider, bind, render, ret.
  simpl. repeat rewrite <- app_assoc. reflexivity.
Qed.

Lemma app_run (env : Env) (ui : Interaction) (s : State) :
  app env ui s
  = let '(ticker, period, vol_threshold) := input_values ui in
    main_analytics env ticker period vol_threshold
      {| page := page_top; cache := cache s; requests := requests s |}.
Proof.
  unfold app, bind at 1. unfold header, bind at 1, render. cbv beta iota.
  unfold bind at 1. rewrite sidebar_inputs_run.
  destruct (input_values ui) as [[ticker period] thr]. reflexivity.
Qed.

Lemma no_input_in_outputs (x : Latest) (thr : Z) (ticker : string) :
  filter is_input (outputs x thr) = [] /\
  filter is_input (before_chart x thr ++ [ErrorBox (error_message ticker)])%list = [] /\
  filter is_input [ErrorBox (error_message ticker)] = [].
Proof. repeat split. Qed.

(** C7. The page has exactly three configuration inputs: a free-text
    ticker whose default is "SPY", a single-select period over 1y, 2y, 5y
    and 10y whose default is "2y", and an integer threshold slider from 10
    to 50 whose default is 20. *)
Theorem sidebar_configuration (env : Env) (ui : Interaction) (s : State) :
  filter is_input (page (snd (app env ui s)))
  = [ Sidebar (TextInput "Ticker Symbol" "SPY"
                 "Enter a valid Yahoo Finance ticker (e.g., AAPL, BTC-USD, TSLA)");
      Sidebar (Selectbox "Lookback Period" ["1y"; "2y"; "5y"; "10y"] 1);
      Sidebar (Slider "Volatility Alert Threshold (%)" 10 50 20) ] /\
  nth 1 ["1y"; "2y"; "5y"; "10y"] "" = "2y" /\
  exists ticker period vol_threshold,
    fst (sidebar_inputs ui s) = Ok (ticker, period, vol_threshold) /\
    ticker = match typed_ticker ui with Some t => t | None => "SPY" end /\
    In period ["1y"; "2y"; "5y"; "10y"] /\
    match chosen_period ui with None => period = "2y" | Some _ => True end /\
    10 <= vol_threshold <= 50 /\
    match slid_threshold ui with None => vol_threshold = 20 | Some _ => True end.
Proof.
  split; [|split; [reflexivity|]].
  - rewrite app_run. destruct (input_values ui) as [[ticker period] thr].
    rewrite main_analytics_run.
    destruct (latest_values env ticker period _) as [[x|e] s1];
      [destruct (st_pyplot env (chart x thr))|];
      cbn [snd page]; rewrite filter_app;
      try rewrite (proj1 (no_input_in_outputs _ _ ticker));
      try rewrite (proj1 (proj2 (no_input_in_outputs _ _ ticker)));
      reflexivity.
  - rewrite sidebar_inputs_run. unfold input_values. simpl. do 3 eexists.
    split; [reflexivity|]. split; [reflexivity|].
    split.
    { destruct (chosen_period ui) as [i|]; [|simpl; auto].
      destruct i as [|[|[|[|i]]]]; simpl; auto. }
    split; [now destruct (chosen_period ui)|].
    split.
    { destruct (slid_threshold ui) as [z|]; [|lia].
      destruct ((10 <=? z) && (z <=? 50)) eqn:E; [|lia].
      apply andb_prop in E. destruct E as [E1 E2].
      apply Z.leb_le in E1. apply Z.leb_le in E2. lia. }
    now destruct (slid_threshold ui).
Qed.

(** ** Last elements and last rows *)

Lemma iloc_last_app (front : Series) (d : Date) (v : float) :
  iloc_last (front ++ [(d, v)])%list = Ok v.
Proof.
  induction front as [|[d0 v0] front IH]; [reflexivity|].
  simpl. destruct (front ++ [(d, v)])%list eqn:E; [|exact IH].
  destruct front; discriminate.
Qed.

Lemma iloc_last_ok_inv (s : Series) (v : float) :
  iloc_last s = Ok v -> exists front d, s = (front ++ [(d, v)])%list.
Proof.
  intros H. destruct s as [|a s]; [discriminate|].
  destruct (exists_last (l := a :: s)) as (front & [d v0] & E); [discriminate|].
  rewrite E in *. rewrite iloc_last_app in H. inversion H; subst.
  now exists front, d.
Qed.

Lemma iloc_last_nil_inv (s : Series) (e : exn) :
  iloc_last s = Raise e -> s = [].
Proof.
  destruct s as [|a s]; [reflexivity|].
  destruct (exists_last (l := a :: s)) as (front & [d v] & E); [discriminate|].
  rewrite E, iloc_last_app. discriminate.
Qed.

(** X1. [.iloc[-1]] raises exactly on the empty series, and what it raises
    there is IndexError and no other exception; on any other series it
    returns the value of the last row. *)
Theorem iloc_last_spec (s : Series) :
  (s = [] <->
   iloc_last s = Raise (IndexError "single positional indexer is out-of-bounds")) /\
  (forall e, iloc_last s = Raise e ->
     s = [] /\ e = IndexError "single positional indexer is out-of-bounds") /\
  (forall front d v, s = (front ++ [(d, v)])%list -> iloc_last s = Ok v) /\
  (forall v, iloc_last s = Ok v -> exists front d, s = (front ++ [(d, v)])%list).
Proof.
  split; [split|split; [|split]].
  - intros ->. reflexivity.
  - intros He. eapply iloc_last_nil_inv; eauto.
  - intros e He. pose proof (iloc_last_nil_inv s e He) as ->.
    split; [reflexivity|]. simpl in He. now inversion He.
  - intros front d v ->. apply iloc_last_app.
  - apply iloc_last_ok_inv.
Qed.

Lemma tail_last_rows (n : nat) (s : Series) :
  length (tail n s) = Nat.min n (length s) /\
  s = (firstn (length s - n) s ++ tail n s)%list /\
  tail (length s + n) s = s.
Proof.
  unfold tail. split; [|split].
  - rewrite length_skipn. lia.
  - symmetry. apply firstn_skipn.
  - replace (length s - (length s + n))%nat with 0%nat by lia. reflexivity.
Qed.

Lemma tail_app_last (n : nat) (front : Series) (row : Date * float) :
  (0 < n)%nat ->
  exists rows, tail n (front ++ [row])%list = (rows ++ [row])%list.
Proof.
  intros Hn. unfold tail. rewrite length_app. simpl.
  rewrite skipn_app.
  replace (length front + 1 - n - length front)%nat with 0%nat by lia.
  simpl. eauto.
Qed.

Lemma tail_keeps_last (n : nat) (s : Series) :
  (0 < n)%nat -> iloc_last (tail n s) = iloc_last s.
Proof.
  intros Hn. destruct s as [|a s]; [reflexivity|].
  destruct (exists_last (l := a :: s)) as (front & [d v] & E); [discriminate|].
  rewrite E. destruct (tail_app_last n front (d, v) Hn) as [rows ->].
  now rewrite !iloc_last_app.
Qed.

(** X2. The raw-data table shows the final rows of the fetched price
    series, in order and at most 30 of them, and its last row carries the
    value the Current Price metric shows. *)
Theorem data_view_rows (env : Env) (ticker period : string) (s s1 : State)
    (x : Latest) :
  latest_values env ticker period s = (Ok x, s1) ->
  exists rows front,
    data_view x = render (Expander "View Raw Data" (Dataframe rows)) /\
    prices x = (front ++ rows)%list /\
    length rows = Nat.min 30 (length (prices x)) /\
    iloc_last rows = Ok (current_price x).
Proof.
  intros H. apply latest_values_ok in H. destruct H as (_ & _ & Hcp & _).
  exists (tail 30 (prices x)), (firstn (length (prices x) - 30) (prices x)).
  split; [reflexivity|].
  split; [apply tail_last_rows|].
  split; [apply tail_last_rows|].
  rewrite tail_keeps_last by lia. exact Hcp.
Qed.

Lemma data_view_rows_witness :
  exists rows front,
    data_view sample_latest = render (Expander "View Raw Data" (Dataframe rows)) /\
    prices sample_latest = (front ++ rows)%list /\
    length rows = Nat.min 30 (length (prices sample_latest)) /\
    iloc_last rows = Ok (current_price sample_latest).
Proof.
  apply (data_view_rows sample_env "SPY" "2y" initial
           (snd (latest_values sample_env "SPY" "2y" initial)) sample_latest).
  vm_compute. reflexivity.
Defined.

Lemma times_100_dates (s : Series) : map fst (times_100 s) = map fst s.
Proof.
  unfold times_100. rewrite map_map. apply map_ext. now intros [d v].
Qed.

Lemma iloc_last_times_100 (s : Series) (v : float) :
  iloc_last s = Ok v -> iloc_last (times_100 s) = Ok (mul v (of_int 100)).
Proof.
  intros H. apply iloc_last_ok_inv in H. destruct H as (front & d & ->).
  unfold times_100. rewrite map_app. simpl. apply iloc_last_app.
Qed.

(** X3. On the chart the right-hand line carries the dates of the
    volatility series and ends at the very value the volatility metric and
    the badge use; the left-hand line is the fetched price series, whose
    last value is the Current Price. *)
Theorem chart_ends_at_latest (env : Env) (ticker period : string) (thr : Z)
    (s s1 : State) (x : Latest) :
  latest_values env ticker period s = (Ok x, s1) ->
  iloc_last (line_data (right_line (chart x thr))) = Ok (current_vol x) /\
  map fst (line_data (right_line (chart x thr))) = map fst (vol_series x) /\
  fst (get_data env ticker period s) = Ok (line_data (left_line (chart x thr))) /\
  iloc_last (line_data (left_line (chart x thr))) = Ok (current_price x).
Proof.
  intros H. apply latest_values_ok in H.
  destruct H as (Hget & _ & Hcp & lv & Hlv & Hcv). simpl.
  split; [rewrite Hcv; now apply iloc_last_times_100|].
  split; [apply times_100_dates|].
  split; [now rewrite Hget | exact Hcp].
Qed.

Lemma chart_ends_at_latest_witness :
  iloc_last (line_data (right_line (chart sample_latest 20)))
  = Ok (current_vol sample_latest) /\
  map fst (line_data (right_line (chart sample_latest 20)))
  = map fst (vol_series sample_latest) /\
  fst (get_data sample_env "SPY" "2y" initial)
  = Ok (line_data (left_line (chart sample_latest 20))) /\
  iloc_last (line_data (left_line (chart sample_latest 20)))
  = Ok (current_price sample_latest).
Proof.
  apply (chart_ends_at_latest sample_env "SPY" "2y" 20 initial
           (snd (latest_values sample_env "SPY" "2y" initial)) sample_latest).
  vm_compute. reflexivity.
Defined.

(** ** A run, stage by stage *)

Lemma latest_values_run (env : Env) (ticker period : string) (s : State) :
  latest_values env ticker period s
  = match get_data env ticker period s with
    | (Ok ps, s1) => (latest_of env ps, s1)
    | (Raise e, s1) => (Raise e, s1)
    end.
Proof.
  unfold latest_values, latest_of, spinner, bind, lift, ret.
  destruct (get_data env ticker period s) as [[ps|e] s1]; [|reflexivity].
  destruct (volatility env ps {| w := 22; r := 0 |}) as [vs|e]; [|reflexivity].
  destruct (iloc_last ps); [|reflexivity].
  now destruct (iloc_last vs).
Qed.

Lemma main_analytics_page (env : Env) (ticker period : string) (thr : Z) (s : State) :
  main_analytics env ticker period thr s
  = (Ok tt,
     {| page := page s ++ below_top env ticker thr (fst (get_data env ticker period s));
        cache := cache (snd (get_data env ticker period s));
        requests := requests (snd (get_data env ticker period s)) |}).
Proof.
  rewrite main_analytics_run, latest_values_run.
  destruct (get_data env ticker period s) as [[ps|e] s1]; simpl; [|reflexivity].
  destruct (latest_of env ps) as [x|e]; simpl; [|reflexivity].
  now destruct (st_pyplot env (chart x thr)).
Qed.

Lemma latest_of_nil (env : Env) : exists e, latest_of env [] = Raise e.
Proof.
  unfold latest_of. destruct (volatility env [] {| w := 22; r := 0 |}); simpl; eauto.
Qed.

(** X4. An empty price series shows the error message and nothing else,
    whatever the volatility routine makes of it. *)
Theorem empty_prices_error_only (env : Env) (ticker period : string)
    (thr : Z) (s : State) :
  fst (get_data env ticker period s) = Ok [] ->
  page (snd (main_analytics env ticker period thr s))
  = (page s ++ [ErrorBox (error_message ticker)])%list.
Proof.
  intros H. rewrite main_analytics_page, H. simpl.
  destruct (latest_of_nil env) as [e ->]. reflexivity.
Qed.

Lemma empty_prices_error_only_witness :
  page (snd (main_analytics empty_column_env "SPY" "1y" 20 initial))
  = ([] ++ [ErrorBox (error_message "SPY")])%list.
Proof.
  apply (empty_prices_error_only empty_column_env "SPY" "1y" 20 initial).
  vm_compute. reflexivity.
Defined.

(** X5. When the downloaded frame has no "Adj Close" column, the run shows
    the error message and nothing else; the request was made, and no
    series is kept for the pair. *)
Theorem missing_column_error_only (env : Env) (ticker period : string)
    (thr : Z) (s : State) (data : gmap string Series) :
  cache s !! (ticker, period) = None ->
  yf_download env (requests s) ticker period = Ok data ->
  data !! "Adj Close" = None ->
  fst (get_data env ticker period s) = Raise (KeyError "Adj Close") /\
  main_analytics env ticker period thr s
  = (Ok tt, {| page := page s ++ [ErrorBox (error_message ticker)];
               cache := cache s;
               requests := S (requests s) |}).
Proof.
  intros Hmiss Hdl Hcol.
  rewrite main_analytics_page, (get_data_miss _ _ _ _ Hmiss), Hdl, Hcol.
  split; reflexivity.
Qed.

Lemma missing_column_error_only_witness :
  fst (get_data sample_env "ZZZINVALID" "1y" initial) = Raise (KeyError "Adj Close") /\
  main_analytics sample_env "ZZZINVALID" "1y" 20 initial
  = (Ok tt, {| page := [] ++ [ErrorBox (error_message "ZZZINVALID")];
               cache := cache initial;
               requests := S (requests initial) |}).
Proof.
  apply (missing_column_error_only sample_env "ZZZINVALID" "1y" 20 initial ∅);
    reflexivity.
Defined.

(** X6. When the volatility routine raises, or returns an empty series,
    the run shows the error message and nothing else. *)
Theorem no_volatility_error_only (env : Env) (ticker period : string)
    (thr : Z) (s : State) (ps : Series) :
  fst (get_data env ticker period s) = Ok ps ->
  (volatility env ps {| w := 22; r := 0 |} = Ok [] \/
   exists e, volatility env ps {| w := 22; r := 0 |} = Raise e) ->
  page (snd (main_analytics env ticker period thr s))
  = (page s ++ [ErrorBox (error_message ticker)])%list.
Proof.
  intros Hget Hvol. rewrite main_analytics_page, Hget. simpl.
  unfold latest_of. destruct Hvol as [-> | [e ->]]; [|reflexivity].
  now destruct (iloc_last ps).
Qed.

Lemma no_volatility_error_only_witness :
  page (snd (main_analytics short_history_env "SPY" "1y" 20 initial))
  = ([] ++ [ErrorBox (error_message "SPY")])%list.
Proof.
  apply (no_volatility_error_only short_history_env "SPY" "1y" 20 initial
           (prices sample_latest)).
  - vm_compute. reflexivity.
  - left. reflexivity.
Defined.

Lemma get_data_ignores_page (env : Env) (ticker period : string) (s : State)
    (pg : list element) :
  let s' := {| page := pg; cache := cache s; requests := requests s |} in
  fst (get_data env ticker period s') = fst (get_data env ticker period s) /\
  cache (snd (get_data env ticker period s')) = cache (snd (get_data env ticker period s)) /\
  requests (snd (get_data env ticker period s'))
  = requests (snd (get_data env ticker period s)).
Proof.
  intros s'.
  destruct (cache s !! (ticker, period)) as [v|] eqn:H.
  - rewrite (get_data_hit env ticker period s v H).
    rewrite (get_data_hit env ticker period s' v H). auto.
  - rewrite (get_data_miss env ticker period s H).
    rewrite (get_data_miss env ticker period s' H). simpl.
    destruct (yf_download env (requests s) ticker period) as [data|e]; auto.
    destruct (data !! "Adj Close"); auto.
Qed.

Lemma app_page (env : Env) (ui : Interaction) (s : State) :
  app env ui s
  = let '(ticker, period, thr) := input_values ui in
    (Ok tt,
     {| page := page_top ++ below_top env ticker thr (fst (get_data env ticker period s));
        cache := cache (snd (get_data env ticker period s));
        requests := requests (snd (get_data env ticker period s)) |}).
Proof.
  rewrite app_run. destruct (input_values ui) as [[ticker period] thr].
  rewrite main_analytics_page.
  destruct (get_data_ignores_page env ticker period s page_top) as (-> & -> & ->).
  reflexivity.
Qed.

Lemma get_data_other (env : Env) (ticker period : string) (s : State)
    (k : string * string) :
  k <> (ticker, period) ->
  cache (snd (get_data env ticker period s)) !! k = cache s !! k.
Proof.
  intros Hk.
  destruct (cache s !! (ticker, period)) as [v|] eqn:H.
  - now rewrite (get_data_hit _ _ _ _ _ H).
  - rewrite (get_data_miss _ _ _ _ H).
    repeat run_step; try reflexivity.
    apply lookup_insert_ne. congruence.
Qed.

Lemma input_values_range (ui : Interaction) :
  let '(_, period, thr) := input_values ui in
  In period period_options /\ 10 <= thr <= 50.
Proof.
  unfold input_values. split.
  - destruct (chosen_period ui) as [i|]; [|simpl; auto].
    destruct i as [|[|[|[|i]]]]; simpl; auto.
  - destruct (slid_threshold ui) as [z|]; [|lia].
    destruct ((10 <=? z) && (z <=? 50)) eqn:E; [|lia].
    apply andb_prop in E. destruct E as [E1 E2].
    apply Z.leb_le in E1. apply Z.leb_le in E2. lia.
Qed.

(** X7. A run of the script never raises, and the title, the introduction
    and the sidebar are at the top of the page on every run, also when the
    analytics fail; below them is either every output, or the error
    message for the ticker alone, or that message after the metrics, the
    badge and the chart heading. *)
Theorem app_page_layout (env : Env) (ui : Interaction) (s : State) :
  let '(ticker, _, thr) := input_values ui in
  fst (app env ui s) = Ok tt /\
  exists rest,
    page (snd (app env ui s)) = (page_top ++ rest)%list /\
    (rest = [ErrorBox (error_message ticker)] \/
     exists x,
       rest = outputs x thr \/
       rest = (before_chart x thr ++ [ErrorBox (error_message ticker)])%list).
Proof.
  rewrite app_page. destruct (input_values ui) as [[ticker period] thr].
  cbn [fst snd page].
  split; [reflexivity|]. eexists. split; [reflexivity|].
  unfold below_top.
  destruct (fst (get_data env ticker period s)) as [ps|e]; [|now left].
  destruct (latest_of env ps) as [x|e]; [|now left].
  right. exists x. destruct (st_pyplot env (chart x thr)); auto.
Qed.

(** X8. A run makes one network request when no series is kept for the
    ticker and period of the inputs, and none when one is; it makes no
    other request. *)
Theorem one_request_per_run (env : Env) (ui : Interaction) (s : State) :
  let '(ticker, period, _) := input_values ui in
  requests (snd (app env ui s))
  = match cache s !! (ticker, period) with
    | Some _ => requests s
    | None => S (requests s)
    end.
Proof.
  rewrite app_page. destruct (input_values ui) as [[ticker period] thr].
  cbn [snd requests]. apply get_data_requests.
Qed.

(** X9. A run leaves the series kept for every other ticker and period
    exactly as they were, and adds none for them. *)
Theorem run_touches_own_key_only (env : Env) (ui : Interaction) (s : State)
    (k : string * string) :
  k <> fst (input_values ui) ->
  cache (snd (app env ui s)) !! k = cache s !! k.
Proof.
  rewrite app_page. destruct (input_values ui) as [[ticker period] thr].
  cbn [fst snd cache]. apply get_data_other.
Qed.

Lemma run_touches_own_key_only_witness :
  cache (snd (app sample_env qqq_5y_30 (snd (app sample_env spy_2y initial))))
    !! ("SPY", "2y")
  = cache (snd (app sample_env spy_2y initial)) !! ("SPY", "2y").
Proof.
  apply (run_touches_own_key_only sample_env qqq_5y_30
           (snd (app sample_env spy_2y initial)) ("SPY", "2y")).
  vm_compute. discriminate.
Defined.

(** ** Invariants of the memo table over many runs *)

Lemma get_data_sound (env : Env) (ticker period : string) (s : State) :
  cache_sound env s -> cache_sound env (snd (get_data env ticker period s)).
Proof.
  intros Hsound.
  destruct (cache s !! (ticker, period)) as [v0|] eqn:Hc.
  - now rewrite (get_data_hit _ _ _ _ _ Hc).
  - rewrite (get_data_miss _ _ _ _ Hc).
    assert (Hold : forall c, c = cache s ->
              cache_sound env {| page := page s; cache := c;
                                 requests := S (requests s) |}).
    { intros c -> t p v Hv. destruct (Hsound t p v Hv) as (n & data & Hn & Hd).
      exists n, data. simpl. split; [lia | exact Hd]. }
    destruct (yf_download env (requests s) ticker period) as [data|e] eqn:Hd;
      [|now apply Hold].
    destruct (data !! "Adj Close") as [col|] eqn:Hcol; [|now apply Hold].
    intros t p v Hv. simpl in Hv.
    destruct (decide ((ticker, period) = (t, p))) as [E|NE].
    + inversion E; subst. rewrite lookup_insert_eq in Hv. inversion Hv; subst.
      exists (requests s), data. simpl. auto.
    + rewrite lookup_insert_ne in Hv by assumption.
      destruct (Hsound t p v Hv) as (n & data' & Hn & Hd').
      exists n, data'. simpl. split; [lia | exact Hd'].
Qed.

Lemma cache_sound_page (env : Env) (s s' : State) :
  cache s' = cache s -> requests s' = requests s ->
  cache_sound env s -> cache_sound env s'.
Proof.
  intros Hc Hr Hsound t p v Hv. rewrite Hc in Hv. rewrite Hr. eauto.
Qed.

Lemma app_sound (env : Env) (ui : Interaction) (s : State) :
  cache_sound env s -> cache_sound env (snd (app env ui s)).
Proof.
  intros Hsound. rewrite app_page.
  destruct (input_values ui) as [[ticker period] thr]. cbn [snd].
  eapply cache_sound_page; [| |apply (get_data_sound env ticker period s Hsound)];
    reflexivity.
Qed.

(** X10. Over any number of runs the memo table only ever holds what the
    provider returned: every kept series is the "Adj Close" column of a
    frame that an earlier request for that very ticker and period got. *)
Theorem cache_sound_reruns (env : Env) (uis : list Interaction) (s : State) :
  cache_sound env s -> cache_sound env (reruns env uis s).
Proof.
  revert s. induction uis as [|ui uis IH]; intros s H; simpl.
  - exact H.
  - apply IH. now apply app_sound.
Qed.

Lemma empty_cache_sound (env : Env) (s : State) : cache s = ∅ -> cache_sound env s.
Proof. intros E t p v H. rewrite E, lookup_empty in H. discriminate. Qed.

Lemma cache_sound_reruns_witness :
  cache_sound sample_env (reruns sample_env [spy_2y; qqq_5y_30; spy_2y] initial).
Proof.
  apply (cache_sound_reruns sample_env [spy_2y; qqq_5y_30; spy_2y] initial).
  now apply empty_cache_sound.
Defined.

Lemma app_periods (env : Env) (ui : Interaction) (s : State) :
  periods_from_options s -> periods_from_options (snd (app env ui s)).
Proof.
  intros Hs t p v Hv.
  pose proof (input_values_range ui) as Hrange.
  rewrite app_page in Hv.
  destruct (input_values ui) as [[ticker period] thr]. cbn [snd cache] in Hv.
  destruct (decide ((t, p) = (ticker, period))) as [E|NE].
  - inversion E; subst. apply Hrange.
  - rewrite (get_data_other env ticker period s (t, p) NE) in Hv. eauto.
Qed.

(** X11. Whatever the user types and picks, over any number of runs, a
    series is only ever kept under a period that is one of the four
    selectbox options. *)
Theorem kept_periods_are_options (env : Env) (uis : list Interaction) (s : State) :
  periods_from_options s -> periods_from_options (reruns env uis s).
Proof.
  revert s. induction uis as [|ui uis IH]; intros s H; simpl.
  - exact H.
  - apply IH. now apply app_periods.
Qed.

Lemma kept_periods_are_options_witness :
  periods_from_options (reruns sample_env [spy_2y; qqq_5y_30] initial).
Proof.
  apply (kept_periods_are_options sample_env [spy_2y; qqq_5y_30] initial).
  intros t p v H. simpl in H. now rewrite lookup_empty in H.
Defined.

Lemma get_data_kept_is_returned (env : Env) (ticker period : string) (s : State)
    (v : Series) :
  cache (snd (get_data env ticker period s)) !! (ticker, period) = Some v ->
  fst (get_data env ticker period s) = Ok v.
Proof.
  destruct (cache s !! (ticker, period)) as [v0|] eqn:H.
  - rewrite (get_data_hit _ _ _ _ _ H). simpl. congruence.
  - rewrite (get_data_miss _ _ _ _ H).
    destruct (yf_download env (requests s) ticker period) as [data|e]; simpl;
      [|congruence].
    destruct (data !! "Adj Close"); simpl; [|congruence].
    rewrite lookup_insert_eq. congruence.
Qed.

(** X12. Running the script again with the same inputs, once the series
    for them is kept, changes nothing: the same page is rendered, the memo
    table is the same and no request is made. *)
Theorem rerun_same_inputs_stable (env : Env) (ui : Interaction) (s : State) :
  is_Some (cache (snd (app env ui s)) !! fst (input_values ui)) ->
  app env ui (snd (app env ui s)) = app env ui s.
Proof.
  intros [v Hv].
  pose proof (app_page env ui s) as E1.
  pose proof (app_page env ui (snd (app env ui s))) as E2.
  destruct (input_values ui) as [[ticker period] thr]. cbn [fst] in Hv.
  rewrite (get_data_hit env ticker period _ v Hv) in E2. cbn [fst snd] in E2.
  rewrite E2. rewrite E1 in Hv |- *. cbn [snd cache requests] in *.
  now rewrite (get_data_kept_is_returned env ticker period s v Hv).
Qed.

Lemma rerun_same_inputs_stable_witness :
  app sample_env spy_2y (snd (app sample_env spy_2y initial))
  = app sample_env spy_2y initial.
Proof.
  apply (rerun_same_inputs_stable sample_env spy_2y initial).
  vm_compute. eexists. reflexivity.
Defined.

Lemma page_top_no_chart (fig : Figure) : ~ In (Pyplot fig) page_top.
Proof. simpl. intuition discriminate. Qed.

(** X13. Every chart a run renders has its reference line at the value of
    the threshold slider, between 10 and 50, labelled with that value. *)
Theorem chart_threshold_line (env : Env) (ui : Interaction) (s : State)
    (fig : Figure) :
  In (Pyplot fig) (page (snd (app env ui s))) ->
  axhline_y fig = snd (input_values ui) /\
  10 <= axhline_y fig <= 50 /\
  axhline_label fig = "Threshold (" ++ str_of_int (axhline_y fig) ++ "%)".
Proof.
  pose proof (input_values_range ui) as Hrange.
  rewrite app_page. destruct (input_values ui) as [[ticker period] thr].
  cbn [snd page]. intros Hin. apply in_app_or in Hin.
  destruct Hin as [Hin|Hin]; [now apply page_top_no_chart in Hin|].
  assert (Hfig : exists x, fig = chart x thr).
  { unfold below_top in Hin.
    destruct (fst (get_data env ticker period s)) as [ps|e];
      [|simpl in Hin; intuition discriminate].
    destruct (latest_of env ps) as [x|e]; [|simpl in Hin; intuition discriminate].
    destruct (st_pyplot env (chart x thr)); simpl in Hin;
      [|intuition discriminate].
    exists x. intuition (try discriminate). congruence. }
  destruct Hfig as [x ->]. simpl. intuition.
Qed.

Lemma chart_threshold_line_witness :
  axhline_y (chart sample_latest 30) = snd (input_values qqq_5y_30) /\
  10 <= axhline_y (chart sample_latest 30) <= 50 /\
  axhline_label (chart sample_latest 30)
  = "Threshold (" ++ str_of_int (axhline_y (chart sample_latest 30)) ++ "%)".
Proof.
  apply (chart_threshold_line sample_env
           {| typed_ticker := None; chosen_period := None;
              slid_threshold := Some 30 |} initial (chart sample_latest 30)).
  vm_compute. do 10 right. left. reflexivity.
Defined.

(** ** Edges of the classification *)

(** X14. When the last volatility is NaN the metric reads nan% and the
    badge is the normal-volatility one, whatever the threshold. *)
Theorem nan_volatility_is_normal (env : Env) (ticker period : string)
    (thr : Z) (s s1 : State) (x : Latest) :
  latest_values env ticker period s = (Ok x, s1) ->
  iloc_last (vol_series x) = Ok S754_nan ->
  vol_metric x = Column 2 (Metric "30-Day Volatility" "nan%") /\
  regime_badge x thr = Column 3 (SuccessBox "🟢 NORMAL VOLATILITY (Stable)").
Proof.
  intros H Hnan. apply latest_values_ok in H.
  destruct H as (_ & _ & _ & lv & Hlv & Hcv).
  rewrite Hnan in Hlv. inversion Hlv; subst lv.
  unfold vol_metric, regime_badge. rewrite Hcv. split; reflexivity.
Qed.

Lemma nan_volatility_is_normal_witness :
  vol_metric nan_latest = Column 2 (Metric "30-Day Volatility" "nan%") /\
  regime_badge nan_latest 10
  = Column 3 (SuccessBox "🟢 NORMAL VOLATILITY (Stable)").
Proof.
  apply (nan_volatility_is_normal nan_volatility_env "SPY" "2y" 10 initial
           (snd (latest_values nan_volatility_env "SPY" "2y" initial)) nan_latest).
  - vm_compute. reflexivity.
  - reflexivity.
Defined.

Lemma exceeds_lower (v : float) (t t' : Z) :
  t <= t' -> exceeds v t' -> exceeds v t.
Proof.
  intros Hle. rewrite Zle_Qle in Hle.
  destruct v as [s|s| |s m e]; simpl; auto;
    intros H; eapply Qle_lt_trans; eauto.
Qed.

(** X15. Moving the threshold slider down never clears the alarm, and
    moving it up never raises one: a value that is high volatility at a
    threshold is high volatility at every lower one, and a value that is
    stable at a threshold is stable at every higher one. *)
Theorem threshold_monotone (v : float) (t t' : Z) :
  t <= t' ->
  (classify v t' = HIGH_VOLATILITY -> classify v t = HIGH_VOLATILITY) /\
  (classify v t = STABLE -> classify v t' = STABLE).
Proof.
  intros Hle.
  assert (Hmono : gt_int v t' = true -> gt_int v t = true).
  { rewrite !gt_int_exceeds. now apply exceeds_lower. }
  unfold classify. destruct (gt_int v t'), (gt_int v t); split; intros H;
    try reflexivity; try discriminate; now specialize (Hmono eq_refl).
Qed.

Lemma threshold_monotone_witness :
  (classify lit_20_01 20 = HIGH_VOLATILITY -> classify lit_20_01 10 = HIGH_VOLATILITY) /\
  (classify lit_20_01 10 = STABLE -> classify lit_20_01 20 = STABLE).
Proof. apply (threshold_monotone lit_20_01 10 20). lia. Defined.

(** ** The failure message *)

Lemma string_length_app (s1 s2 : string) :
  String.length (s1 ++ s2) = (String.length s1 + String.length s2)%nat.
Proof. induction s1 as [|c s1 IH]; simpl; [reflexivity | now rewrite IH]. Qed.

Lemma string_app_inv_tail (x y z : string) : x ++ z = y ++ z -> x = y.
Proof.
  revert y. induction x as [|c x IH]; intros [|c' y] H.
  - reflexivity.
  - apply (f_equal String.length) in H.
    rewrite !string_length_app in H. simpl in H. lia.
  - apply (f_equal String.length) in H.
    rewrite !string_length_app in H. simpl in H. lia.
  - change (String c (x ++ z) = String c' (y ++ z)) in H.
    inversion H; subst. f_equal. now apply IH.
Qed.

(** X16. The failure message identifies the ticker: two runs show the same
    message only if the ticker strings are the same, character for
    character. *)
Theorem error_message_identifies_ticker (t1 t2 : string) :
  error_message t1 = error_message t2 -> t1 = t2.
Proof.
  unfold error_message. intros H.
  apply (inj (String.append _)) in H.
  now apply string_app_inv_tail in H.
Qed.

Lemma error_message_identifies_ticker_witness : "SPY" = "SPY".
Proof. apply (error_message_identifies_ticker "SPY" "SPY"). reflexivity. Defined.

(** ** Accuracy of the displayed numbers *)













(** ** Requests over many runs *)

Lemma app_requests_bounds (env : Env) (ui : Interaction) (s : State) :
  (requests s <= requests (snd (app env ui s)) <= S (requests s))%nat.
Proof.
  rewrite app_page. destruct (input_values ui) as [[ticker period] thr].
  cbn [snd requests]. rewrite get_data_requests.
  destruct (cache s !! (ticker, period)); lia.
Qed.

(** X19. The request count never goes down, and any number of runs makes
    at most that number of network requests. *)
Theorem requests_bounded_by_runs (env : Env) (uis : list Interaction) (s : State) :
  (requests s <= requests (reruns env uis s) <= requests s + length uis)%nat.
Proof.
  revert s. induction uis as [|ui uis IH]; intros s; simpl.
  - lia.
  - pose proof (app_requests_bounds env ui s).
    specialize (IH (snd (app env ui s))). lia.
Qed.

(** ** The ticker, from the text input to the memo table and the page *)

Lemma input_values_typed (ui : Interaction) (t : string) :
  typed_ticker ui = Some t -> fst (fst (input_values ui)) = t.
Proof. unfold input_values. now intros ->. Qed.

Lemma input_values_same_period (ui1 ui2 : Interaction) :
  chosen_period ui2 = chosen_period ui1 ->
  snd (fst (input_values ui2)) = snd (fst (input_values ui1)).
Proof. unfold input_values. now intros ->. Qed.

Lemma error_boxes_name_ticker (env : Env) (t : string) (thr : Z)
    (fetched : result Series) (body : string) :
  In (ErrorBox body) (page_top ++ below_top env t thr fetched) ->
  body = error_message t.
Proof.
  intros Hin. apply in_app_or in Hin. destruct Hin as [Hin|Hin].
  - simpl in Hin. intuition discriminate.
  - unfold below_top in Hin.
    destruct fetched as [ps|e]; [|simpl in Hin; intuition congruence].
    destruct (latest_of env ps) as [x|e]; [|simpl in Hin; intuition congruence].
    destruct (st_pyplot env (chart x thr));
      unfold outputs, before_chart, price_metric, vol_metric, regime_badge in Hin;
      simpl in Hin; intuition (try discriminate; congruence).
Qed.

Lemma app_on_miss (env : Env) (ui : Interaction) (s : State)
    (t p : string) (thr : Z) :
  input_values ui = (t, p, thr) ->
  cache s !! (t, p) = None ->
  requests (snd (app env ui s)) = S (requests s) /\
  cache (snd (app env ui s)) !! (t, p)
  = match yf_download env (requests s) t p with
    | Ok data => data !! "Adj Close"
    | Raise _ => None
    end /\
  (forall k, k <> (t, p) -> cache (snd (app env ui s)) !! k = cache s !! k) /\
  (cache (snd (app env ui s)) !! (t, p) = None ->
   page (snd (app env ui s)) = (page_top ++ [ErrorBox (error_message t)])%list) /\
  (forall body, In (ErrorBox body) (page (snd (app env ui s))) ->
                body = error_message t).
Proof.
  intros Hin Hmiss. rewrite app_page, Hin. cbn [snd page cache requests].
  split; [now rewrite get_data_requests, Hmiss|].
  split.
  { rewrite (get_data_miss _ _ _ _ Hmiss).
    destruct (yf_download env (requests s) t p) as [data|e]; [|exact Hmiss].
    destruct (data !! "Adj Close"); [apply lookup_insert_eq | exact Hmiss]. }
  split; [intros k Hk; now apply get_data_other|].
  split; [|intros body; apply error_boxes_name_ticker].
  intros Hnone.
  destruct (fst (get_data env t p s)) as [v|e] eqn:Hget; [|reflexivity].
  pose proof (get_data_stores env t p s (snd (get_data env t p s)) v) as Hst.
  rewrite Hst in Hnone; [discriminate|].
  rewrite <- Hget. now destruct (get_data env t p s).
Qed.

(** C10. The ticker is used as typed, with no trimming and no change of
    case: the string the user typed into the text input is the ticker
    half of the key under which the run keeps the series, it is the
    ticker the provider is asked for, and it is spliced unchanged into the
    failure message the run shows.  So two runs whose typed tickers
    differ, be it only in case or in surrounding blanks, with the same
    period, make two network requests, one for each string, and keep the
    two series under two keys. *)
Theorem ticker_verbatim (env : Env) (ui1 ui2 : Interaction)
    (t1 t2 period : string) (s : State) :
  typed_ticker ui1 = Some t1 ->
  typed_ticker ui2 = Some t2 ->
  chosen_period ui2 = chosen_period ui1 ->
  snd (fst (input_values ui1)) = period ->
  t1 <> t2 ->
  cache s !! (t1, period) = None ->
  cache s !! (t2, period) = None ->
  let s1 := snd (app env ui1 s) in
  let s2 := snd (app env ui2 s1) in
  let kept (reply : result (gmap string Series)) : option Series :=
    match reply with Ok data => data !! "Adj Close" | Raise _ => None end in
  let message (t : string) : string :=
    "Error: Could not fetch data for ticker '" ++ t ++ "'. Please check the symbol." in
  requests s1 = S (requests s) /\
  requests s2 = S (S (requests s)) /\
  cache s1 !! (t1, period) = kept (yf_download env (requests s) t1 period) /\
  cache s1 !! (t2, period) = None /\
  cache s2 !! (t2, period) = kept (yf_download env (S (requests s)) t2 period) /\
  cache s2 !! (t1, period) = cache s1 !! (t1, period) /\
  (cache s1 !! (t1, period) = None ->
   page s1 = (page_top ++ [ErrorBox (message t1)])%list) /\
  (cache s2 !! (t2, period) = None ->
   page s2 = (page_top ++ [ErrorBox (message t2)])%list) /\
  (forall body, In (ErrorBox body) (page s1) -> body = message t1) /\
  (forall body, In (ErrorBox body) (page s2) -> body = message t2).
Proof.
  intros Ht1 Ht2 Hsame Hperiod Hne Hmiss1 Hmiss2 s1 s2 kept message.
  assert (Hin1 : exists thr1, input_values ui1 = (t1, period, thr1)).
  { pose proof (input_values_typed ui1 t1 Ht1).
    destruct (input_values ui1) as [[a b] c]. simpl in *. subst. eauto. }
  assert (Hin2 : exists thr2, input_values ui2 = (t2, period, thr2)).
  { pose proof (input_values_typed ui2 t2 Ht2).
    pose proof (input_values_same_period ui1 ui2 Hsame) as Hp.
    rewrite Hperiod in Hp.
    destruct (input_values ui2) as [[a b] c]. simpl in *. subst. eauto. }
  destruct Hin1 as [thr1 Hin1]. destruct Hin2 as [thr2 Hin2].
  destruct (app_on_miss env ui1 s t1 period thr1 Hin1 Hmiss1)
    as (Hr1 & Hk1 & Ho1 & Hp1 & He1).
  assert (Hmiss2' : cache s1 !! (t2, period) = None).
  { unfold s1. rewrite Ho1; [exact Hmiss2 | congruence]. }
  destruct (app_on_miss env ui2 s1 t2 period thr2 Hin2 Hmiss2')
    as (Hr2 & Hk2 & Ho2 & Hp2 & He2).
  fold s1 in Hr1, Hk1, Hp1, He1. fold s2 in Hr2, Hk2, Ho2, Hp2, He2.
  rewrite Hr1 in Hr2, Hk2.
  repeat split; try assumption.
  apply Ho2. congruence.
Qed.

Lemma ticker_verbatim_witness :
  let ui1 := {| typed_ticker := Some "SPY"; chosen_period := None;
                slid_threshold := None |} in
  let ui2 := {| typed_ticker := Some " spy"; chosen_period := None;
                slid_threshold := Some 30 |} in
  let s1 := snd (app sample_env ui1 initial) in
  let s2 := snd (app sample_env ui2 s1) in
  let kept (reply : result (gmap string Series)) : option Series :=
    match reply with Ok data => data !! "Adj Close" | Raise _ => None end in
  let message (t : string) : string :=
    "Error: Could not fetch data for ticker '" ++ t ++ "'. Please check the symbol." in
  requests s1 = 1%nat /\
  requests s2 = 2%nat /\
  cache s1 !! ("SPY", "2y") = kept (sample_download 0 "SPY" "2y") /\
  cache s1 !! (" spy", "2y") = None /\
  cache s2 !! (" spy", "2y") = kept (sample_download 1 " spy" "2y") /\
  cache s2 !! ("SPY", "2y") = cache s1 !! ("SPY", "2y") /\
  (cache s1 !! ("SPY", "2y") = None ->
   page s1 = (page_top ++ [ErrorBox (message "SPY")])%list) /\
  (cache s2 !! (" spy", "2y") = None ->
   page s2 = (page_top ++ [ErrorBox (message " spy")])%list) /\
  (forall body, In (ErrorBox body) (page s1) -> body = message "SPY") /\
  (forall body, In (ErrorBox body) (page s2) -> body = message " spy").
Proof.
  apply (ticker_verbatim sample_env
           {| typed_ticker := Some "SPY"; chosen_period := None;
              slid_threshold := None |}
           {| typed_ticker := Some " spy"; chosen_period := None;
              slid_threshold := Some 30 |}
           "SPY" " spy" "2y" initial);
    try reflexivity.
  discriminate.
Defined.
